(** * jirafa: a shallow embedding of [src/jirafa.py]

    The development follows the layout of the Python module:
    - [PyStr]: the [str] methods the module calls ([lower], [strip],
      [split], [in], slicing, ordering), on ASCII strings;
    - [Py]: exceptions, the error monad used where the code raises, and
      loosely typed values with [getattr];
    - [Jira]: the records the client library hands back and the tracking
      service seen as an oracle, with the log of the calls issued;
    - [Comments]: [get_ticket_comments] and its filter;
    - [Jql], [Tickets], [Create]: [run_jql], [list_tickets],
      [create_jira_ticket].

    Console progress messages (the [click.echo] lines that only report
    counts, and the [tqdm] bar) are left out; the warnings of the comment
    filter, the rendered output and every remote call are kept.

    Python [int] is [Z].  Python [str] is [string], a character being a
    code point below 256: [lower], [strip] and the ordering are those of
    Python on such text, and text with other characters is outside the
    model. *)

From Stdlib Require Import String Ascii List ZArith Lia Bool Arith Sorted Permutation.
Import ListNotations.
Open Scope Z_scope.
Open Scope string_scope.

(** ** Python strings *)
Module PyStr.

(** [str.lower()] on one character: the letters A-Z, and the capital
    letters of the Latin-1 range (codes 192 to 222, the multiplication
    sign 215 apart), move up by 32. *)
Definition lower_char (c : ascii) : ascii :=
  let n := N_of_ascii c in
  if (((65 <=? n) && (n <=? 90))
      || ((192 <=? n) && (n <=? 222) && negb (n =? 215)))%N
  then ascii_of_N (n + 32) else c.

Fixpoint lower (s : string) : string :=
  match s with
  | EmptyString => EmptyString
  | String c r => String (lower_char c) (lower r)
  end.

(** The characters [str.strip()] removes when called without argument:
    TAB, LF, VT, FF, CR, the separators FS, GS, RS, US, the space, and in
    the Latin-1 range NEL (133) and the no-break space (160). *)
Definition is_space (c : ascii) : bool :=
  let n := N_of_ascii c in
  (((9 <=? n) && (n <=? 13)) || ((28 <=? n) && (n <=? 32))
   || (n =? 133) || (n =? 160))%N.

(** The two quote characters (codes 34 and 39) that the value of a
    token is stripped of. *)
Definition is_quote (c : ascii) : bool :=
  let n := N_of_ascii c in ((n =? 34)%N || (n =? 39)%N).

Fixpoint lstrip_by (p : ascii -> bool) (s : string) : string :=
  match s with
  | EmptyString => EmptyString
  | String c r => if p c then lstrip_by p r else s
  end.

Fixpoint rstrip_by (p : ascii -> bool) (s : string) : string :=
  match s with
  | EmptyString => EmptyString
  | String c r =>
      match rstrip_by p r with
      | EmptyString => if p c then EmptyString else String c EmptyString
      | r' => String c r'
      end
  end.

Definition strip_by (p : ascii -> bool) (s : string) : string :=
  rstrip_by p (lstrip_by p s).

(** [s.strip()] *)
Definition strip : string -> string := strip_by is_space.
(** [s.strip(q)] with [q] the two quote characters *)
Definition strip_quotes : string -> string := strip_by is_quote.

(** [s[n:]] *)
Fixpoint drop (n : nat) (s : string) : string :=
  match n, s with
  | O, _ => s
  | S _, EmptyString => EmptyString
  | S k, String _ r => drop k r
  end.

(** [s[:n]] *)
Definition take (n : nat) (s : string) : string := substring 0 n s.

(** [sub in s] *)
Fixpoint contains (sub s : string) : bool :=
  prefix sub s ||
  match s with
  | EmptyString => false
  | String _ r => contains sub r
  end.

(** The first occurrence of [sep] in [s]: what is before and after it. *)
Fixpoint partition (sep s : string) : option (string * string) :=
  if prefix sep s then Some (EmptyString, drop (String.length sep) s)
  else match s with
       | EmptyString => None
       | String c r =>
           match partition sep r with
           | Some (a, b) => Some (String c a, b)
           | None => None
           end
       end.

(** [s.split(sep, 1)]: at most one cut, one or two pieces. *)
Definition split1 (sep s : string) : list string :=
  match partition sep s with
  | Some (a, b) => [a; b]
  | None => [s]
  end.

(** [s.split(sep)] for a non-empty [sep]: a left-to-right scan cutting at
    every occurrence that does not overlap the previous one.  [skip]
    counts the characters of a matched separator still to be passed and
    [cur] is the piece being read. *)
Fixpoint split_go (sep : string) (skip : nat) (cur s : string) : list string :=
  match s with
  | EmptyString => [cur]
  | String c r =>
      match skip with
      | S k => split_go sep k cur r
      | O =>
          if prefix sep s
          then cur :: split_go sep (String.length sep - 1)%nat EmptyString r
          else split_go sep 0 (cur ++ String c EmptyString) r
      end
  end.

Definition split (sep s : string) : list string := split_go sep 0 EmptyString s.

(** [a < b] and [a > b] on strings: lexicographic on character codes. *)
Definition lt (a b : string) : bool := String.ltb a b.
Definition gt (a b : string) : bool := String.ltb b a.

End PyStr.

(** ** Exceptions *)
Module Py.

Inductive exn : Type :=
| ValueError
| AttributeError
| FileNotFoundError
| ZeroDivisionError
| IsADirectoryError
| PermissionError
| UnicodeDecodeError.

(** A computation that returns or raises. *)
Definition M (A : Type) : Type := (exn + A)%type.

Definition ret {A} (a : A) : M A := inr a.
Definition raise {A} (e : exn) : M A := inl e.
Definition bind {A B} (m : M A) (k : A -> M B) : M B :=
  match m with
  | inl e => inl e
  | inr a => k a
  end.

(** [a, b = l]: unpacking into two targets. *)
Definition unpack2 {A} (l : list A) : M (A * A) :=
  match l with
  | [a; b] => ret (a, b)
  | _ => raise ValueError
  end.

End Py.

Notation "x <- c ;; k" := (Py.bind c (fun x => k))
  (at level 61, c at next level, right associativity).
Notation "' p <- c ;; k" := (Py.bind c (fun p => k))
  (at level 61, p pattern, c at next level, right associativity).

(** ** Loosely typed values *)
Module PyVal.
Import Py.

(** A value found on a record of the service: a string, an integer, a
    float (known by its [repr]), a boolean, [None], a list of values, or
    an object with attributes.  Only objects carry a [__dict__];
    [obj_str] is what [str(v)] returns for one.  The attributes are those
    of the record: the methods Python gives to its built-in values are
    not looked up. *)
#[warning="-register-all"]
Inductive value : Type :=
| VStr (s : string)
| VInt (z : Z)
| VFloat (repr : string)
| VBool (b : bool)
| VNone
| VList (l : list value)
| VObj (obj_str : string) (attrs : list (string * value)).

Fixpoint assoc {A} (k : string) (l : list (string * A)) : option A :=
  match l with
  | [] => None
  | (k', v) :: r => if k' =? k then Some v else assoc k r
  end.

(** [getattr(obj, attr)] *)
Definition getattr (obj : value) (attr : string) : M value :=
  match obj with
  | VObj _ attrs =>
      match assoc attr attrs with
      | Some v => ret v
      | None => raise AttributeError
      end
  | _ => raise AttributeError
  end.

(** [getattr(obj, attr, default)] *)
Definition getattr_default (obj : value) (attr : string) (default : value) : value :=
  match getattr obj attr with
  | inr v => v
  | inl _ => default
  end.

(** [hasattr(v, '__dict__')] *)
Definition has_dict (v : value) : bool :=
  match v with
  | VObj _ _ => true
  | _ => false
  end.

(** [str(v)] where the code calls it, that is on objects. *)
Definition str (v : value) : value :=
  match v with
  | VObj s _ => VStr s
  | _ => v
  end.

(** A [dict] with string keys, in insertion order; [d[k] = v] keeps the
    place of a key already present. *)
Definition dict : Type := list (string * value).

Fixpoint dict_set (d : dict) (k : string) (v : value) : dict :=
  match d with
  | [] => [(k, v)]
  | (k', v') :: r => if k' =? k then (k', v) :: r else (k', v') :: dict_set r k v
  end.

(** [d.get(k, default)] *)
Definition dict_get (d : dict) (k : string) (default : value) : value :=
  match assoc k d with
  | Some v => v
  | None => default
  end.

(** [len(l)] *)
Definition len {A} (l : list A) : Z := Z.of_nat (List.length l).

End PyVal.

(** ** The service *)
Module Jira.
Import PyVal.

(** A comment as the code reads it: [comment.id],
    [comment.author.displayName] ([None] when the attribute chain is
    broken, which makes the access raise [AttributeError]),
    [comment.created] and [comment.body]. *)
Record Comment : Type := {
  id : string;
  author_displayName : option string;
  created : string;
  body : string
}.

(** An issue: [issue.key] and the open-ended [issue.fields]. *)
Record Issue : Type := {
  key : string;
  fields : value
}.

(** The arguments of one [search_issues] call. *)
Record SearchReq : Type := {
  jql : string;
  req_fields : list string;
  startAt : Z;
  maxResults : Z
}.

(** What [search_issues] returns: a list with a [total] attribute. *)
Record ResultList : Type := {
  items : list Issue;
  total : Z
}.

(** The [fields] argument of [create_issue]. *)
Record IssueFields : Type := {
  f_project : string;
  f_summary : string;
  f_description : string;
  f_issuetype : string;
  f_priority : string
}.

(** The client.  The service is a black box: [search_issues n r] is its
    answer to request [r] when [n] searches were issued before, so that
    answers may change from one request to the next. *)
Record JIRA : Type := {
  search_issues : nat -> SearchReq -> ResultList;
  issue : string -> Issue;
  comments : Issue -> list Comment;
  create_issue : IssueFields -> Issue
}.

(** The remote calls a function issues, in order. *)
Inductive call : Type :=
| CallSearch (r : SearchReq)
| CallIssue (issue_key : string)
| CallComments (i : Issue)
| CallCreateIssue (f : IssueFields)
| CallAddIssuesToEpic (epic_key : string) (keys : list string).

(** A fetch loop run for a bounded number of iterations: it has ended
    with [total_issues], or the bound was reached first.  Either way the
    calls issued so far are known. *)
Inductive fetch : Type :=
| Done (total_issues : list Issue) (log : list call)
| OutOfFuel (log : list call).

Definition fetch_log (f : fetch) : list call :=
  match f with
  | Done _ l => l
  | OutOfFuel l => l
  end.

Definition with_call (c : call) (f : fetch) : fetch :=
  match f with
  | Done r l => Done r (c :: l)
  | OutOfFuel l => OutOfFuel (c :: l)
  end.

(** What a listing command leaves behind: the table echoed, or the file
    written. *)
Inductive output : Type :=
| Table (headers : list string) (rows : list (list value))
| CsvFile (path : string) (header : list string) (rows : list (list value))
| JsonFile (path : string) (objects : list dict).

End Jira.

(** ** [get_ticket_comments] *)
Module Comments.
Import Py PyVal Jira.

Definition get_displayName (c : Comment) : M string :=
  match author_displayName c with
  | Some d => ret d
  | None => raise AttributeError
  end.

(** What the body of the [try] decides for one token: [Break] stands for
    [include_comment = False; break], [Next] for reaching the end of the
    [if]/[elif] chain. *)
Inductive verdict : Type := Break | Next.

(** Lines 284-305, the body of the [try]. *)
Definition try_filter (comment : Comment) (filter_str : string) : M verdict :=
  '(field, value) <- unpack2 (PyStr.split1 ":" filter_str) ;;
  let field := PyStr.strip (PyStr.lower field) in
  let value := PyStr.strip_quotes (PyStr.lower value) in
  c1 <- (if field =? "author"
         then d <- get_displayName comment ;;
              ret (negb (PyStr.contains value (PyStr.lower d)))
         else ret false) ;;
  if c1 then ret Break
  else if (field =? "text") && negb (PyStr.contains value (PyStr.lower (body comment)))
  then ret Break
  else if field =? "date" then
    let comment_date := PyStr.take 10 (created comment) in
    if PyStr.contains "to" value then
      '(start_date, end_date) <- unpack2 (PyStr.split "to" value) ;;
      if PyStr.lt comment_date (PyStr.strip start_date)
         || PyStr.gt comment_date (PyStr.strip end_date)
      then ret Break
      else ret Next
    else if negb (comment_date =? value) then ret Break
    else ret Next
  else ret Next.

(** Whether the token made the code leave with [include_comment = False]. *)
Definition is_break (r : M verdict) : bool :=
  match r with
  | inr Break => true
  | _ => false
  end.

(** A line written to stderr by the [except] clause: the token and the
    exception caught. *)
Definition warning : Type := (string * exn)%type.

(** Lines 282-308: the loop over the tokens for one comment.  Returns
    [include_comment] and the warnings echoed, in order. *)
Fixpoint filter_loop (comment : Comment) (filters : list string)
  : bool * list warning :=
  match filters with
  | [] => (true, [])
  | filter_str :: rest =>
      match try_filter comment filter_str with
      | inr Break => (false, [])
      | inr Next => filter_loop comment rest
      | inl e =>
          let '(b, w) := filter_loop comment rest in
          (b, (filter_str, e) :: w)
      end
  end.

(** Lines 277-311: the loop over the comments. *)
Fixpoint filter_comments (comments : list Comment) (filters : list string)
  : list Comment * list warning :=
  match comments with
  | [] => ([], [])
  | comment :: rest =>
      let '(include_comment, w) := filter_loop comment filters in
      let '(filtered_comments, ws) := filter_comments rest filters in
      (if include_comment then comment :: filtered_comments else filtered_comments,
       (w ++ ws)%list)
  end.



(** [[f(x) for x in l]] where [f] may raise. *)
Fixpoint mapM {A B} (f : A -> M B) (l : list A) : M (list B) :=
  match l with
  | [] => ret []
  | a :: r => b <- f a ;; bs <- mapM f r ;; ret (b :: bs)
  end.

(** Lines 314-315: the cap, applied to the filtered comments. *)
Definition cap (max_results : Z) (filtered_comments : list Comment) : list Comment :=
  if (max_results >? 0) && (len filtered_comments >? max_results)
  then firstn (Z.to_nat max_results) filtered_comments
  else filtered_comments.

(** Lines 321-326: the [comment_data] dictionary. *)
Definition comment_dict (comment : Comment) : M dict :=
  author <- get_displayName comment ;;
  ret [("id", VStr (id comment));
       ("author", VStr author);
       ("date", VStr (PyStr.take 19 (created comment)));
       ("body", VStr (body comment))].

(** Lines 329-334: the table row, the body cut at 50 characters. *)
Definition comment_row (comment : Comment) : M (list value) :=
  d <- comment_dict comment ;;
  let b := body comment in
  ret [dict_get d "id" VNone;
       dict_get d "author" VNone;
       dict_get d "date" VNone;
       VStr (PyStr.take 50 b ++ (if (50 <? String.length b)%nat then "..." else ""))].

Definition comment_headers : list string := ["ID"; "Author"; "Date"; "Comment"].

(** What one call leaves: the remote calls, the warnings on stderr, and
    either an exception or the data returned (rows for a table,
    dictionaries otherwise) with the output written. *)
Record run : Type := {
  log : list call;
  stderr : list warning;
  returned : M ((list (list value) + list dict) * option output)
}.

(** Lines 259-354. *)
Definition get_ticket_comments (jira : JIRA) (issue_key : string)
    (filters : list string) (max_results : Z) (output_format : string) : run :=
  let issue := Jira.issue jira issue_key in
  let comments := Jira.comments jira issue in
  let '(filtered_comments, warnings) := filter_comments comments filters in
  let filtered_comments := cap max_results filtered_comments in
  {| log := [CallIssue issue_key; CallComments issue];
     stderr := warnings;
     returned :=
       if output_format =? "table" then
         comments_data <- mapM comment_row filtered_comments ;;
         ret (inl comments_data, Some (Table comment_headers comments_data))
       else
         comments_data <- mapM comment_dict filtered_comments ;;
         let row (c : dict) :=
           [dict_get c "id" VNone; dict_get c "author" VNone;
            dict_get c "date" VNone; dict_get c "body" VNone] in
         ret (inr comments_data,
              if output_format =? "csv" then
                Some (CsvFile (issue_key ++ "_comments.csv") comment_headers
                        (map row comments_data))
              else if output_format =? "json" then
                Some (JsonFile (issue_key ++ "_comments.json") comments_data)
              else None) |}.

End Comments.

(** ** Field access and projection *)
Module Fields.
Import Py PyVal Jira.

(** Lines 64-69: walk the dotted chain, [default] on the first
    [AttributeError]. *)
Fixpoint walk (obj : value) (attrs : list string) : M value :=
  match attrs with
  | [] => ret obj
  | attr :: r => o <- getattr obj attr ;; walk o r
  end.

Definition safe_getattr (obj : value) (attr_chain : string) (default : value) : value :=
  match walk obj (PyStr.split "." attr_chain) with
  | inr v => v
  | inl _ => default
  end.

(** Lines 211-213 and 223-225: the display value of a field other than
    the key. *)
Definition field_value (issue : Issue) (field : string) : value :=
  let field_value := safe_getattr (fields issue) field (VStr "N/A") in
  if has_dict field_value then str field_value else field_value.

(** ['key' in fields] *)
Definition mem (x : string) (l : list string) : bool :=
  existsb (fun y => y =? x) l.

End Fields.

(** ** [run_jql] *)
Module Jql.
Import Py PyVal Jira Fields.

Section Loop.
Variable jira : JIRA.
Variable jql_query : string.
Variable fields : list string.
Variables max_results items_per_batch total_issues_count : Z.

(** Lines 386-399.  [n] is the number of searches issued so far and
    [fuel] bounds the number of iterations. *)
Fixpoint loop (fuel : nat) (n : nat) (start_at : Z) (total_issues : list Issue)
  : fetch :=
  if (start_at <? total_issues_count)%Z then
    match fuel with
    | O => OutOfFuel []
    | S fuel' =>
        let batch_size := Z.min items_per_batch (total_issues_count - start_at) in
        let req := {| jql := jql_query; req_fields := fields;
                      startAt := start_at; maxResults := batch_size |} in
        let issues := items (search_issues jira n req) in
        match issues with
        | [] => Done total_issues [CallSearch req]
        | _ =>
            let total_issues := (total_issues ++ issues)%list in
            let start_at := start_at + len issues in
            if (max_results >? 0) && (len total_issues >=? max_results)
            then Done (firstn (Z.to_nat max_results) total_issues) [CallSearch req]
            else with_call (CallSearch req) (loop fuel' (S n) start_at total_issues)
        end
    end
  else Done total_issues [].
End Loop.

(** Line 375 and 378: the count-only request. *)
Definition count_req (jql_query : string) : SearchReq :=
  {| jql := jql_query; req_fields := ["id"]; startAt := 0; maxResults := 0 |}.

(** Lines 374-379: the total the loop works towards, from the total the
    service reports. *)
Definition total_count (max_results count : Z) : Z :=
  if (max_results =? 0)%Z then count else Z.min max_results count.

(** Line 381. *)
Definition num_batches (total_issues_count items_per_batch : Z) : M Z :=
  if (items_per_batch =? 0)%Z then raise ZeroDivisionError
  else ret (total_issues_count / items_per_batch
            + (if (total_issues_count mod items_per_batch =? 0)%Z then 0 else 1)).

(** Lines 405-410: the row of one issue. *)
Definition ticket_row (issue : Issue) : list value :=
  [getattr_default (Jira.fields issue) "summary" (VStr "N/A");
   safe_getattr (Jira.fields issue) "status.name" (VStr "N/A");
   safe_getattr (Jira.fields issue) "assignee.displayName" (VStr "Unassigned");
   VStr (key issue)].

(** [dict(zip(fields, ticket))] *)
Definition dict_zip (fields : list string) (ticket : list value) : dict :=
  fold_left (fun d '(f, v) => dict_set d f v) (combine fields ticket) [].

(** Lines 413-425. *)
Definition render (fields : list string) (tickets_data : list (list value))
    (output_format : string) : option output :=
  if output_format =? "table" then Some (Table fields tickets_data)
  else if output_format =? "csv" then
    Some (CsvFile "jql_query_tickets.csv" fields tickets_data)
  else if output_format =? "json" then
    Some (JsonFile "jql_query_tickets.json" (map (dict_zip fields) tickets_data))
  else None.

(** What one call leaves: the remote calls and either an exception or
    [total_issues], [tickets_data] and the output. *)
Record run : Type := {
  log : list call;
  returned : M (list Issue * list (list value) * option output)
}.

(** Lines 356-425.  The loop is run for [total_issues_count] iterations
    at most; [None] would mean that this was not enough, which never
    happens ([run_jql_returns] below). *)
Definition run_jql (jira : JIRA) (jql_query : string) (fields : list string)
    (max_results items_per_batch : Z) (output_format : string) : option run :=
  let count := total (search_issues jira 0 (count_req jql_query)) in
  let total_issues_count := total_count max_results count in
  match num_batches total_issues_count items_per_batch with
  | inl e => Some {| log := [CallSearch (count_req jql_query)]; returned := inl e |}
  | inr _ =>
      match loop jira jql_query fields max_results items_per_batch
                 total_issues_count (Z.to_nat total_issues_count) 1 0 [] with
      | OutOfFuel _ => None
      | Done total_issues l =>
          let tickets_data := map ticket_row total_issues in
          Some {| log := CallSearch (count_req jql_query) :: l;
                  returned := ret (total_issues, tickets_data,
                                   render fields tickets_data output_format) |}
      end
  end.

End Jql.

(** ** [list_tickets] *)
Module Tickets.
Import Py PyVal Jira Fields.

Section Loop.
Variable jira : JIRA.
Variable jql_query : string.
Variable all_fields : list string.
Variables max_results items_per_batch : Z.

(** Lines 192-200, a [while True] loop; [fuel] bounds the number of
    iterations. *)
Fixpoint loop (fuel : nat) (n : nat) (start_at : Z) (total_issues : list Issue)
  : fetch :=
  match fuel with
  | O => OutOfFuel []
  | S fuel' =>
      let batch_size :=
        if max_results >? 0
        then Z.min items_per_batch (max_results - len total_issues)
        else items_per_batch in
      let req := {| jql := jql_query; req_fields := all_fields;
                    startAt := start_at; maxResults := batch_size |} in
      let issues := items (search_issues jira n req) in
      match issues with
      | [] => Done total_issues [CallSearch req]
      | _ =>
          let total_issues := (total_issues ++ issues)%list in
          let start_at := start_at + len issues in
          if (len issues <? batch_size)%Z
             || ((max_results >? 0) && (len total_issues >=? max_results))
          then Done total_issues [CallSearch req]
          else with_call (CallSearch req) (loop fuel' (S n) start_at total_issues)
      end
  end.
End Loop.

(** Lines 177-178.  The caller's list is extended in place; the result is
    the list every later line reads. *)
Definition with_key (fields : list string) : list string :=
  if mem "key" fields then fields else (fields ++ ["key"])%list.

(** Lines 181-186. *)
Definition build_jql (project_key : string) (filters : list string) : string :=
  let jql_query := "project = " ++ project_key in
  match filters with
  | [] => jql_query
  | _ => jql_query ++ " AND " ++ String.concat " AND " filters
  end.

(** Lines 207-214: one cell of a table row. *)
Definition cell (issue : Issue) (field : string) : value :=
  if field =? "key" then VStr (key issue) else field_value issue field.

(** Lines 206-215. *)
Definition ticket_list (fields : list string) (issue : Issue) : list value :=
  map (cell issue) fields.

(** Lines 218-227. *)
Definition ticket_dict (fields : list string) (issue : Issue) : dict :=
  fold_left
    (fun ticket field =>
       if field =? "key" then dict_set ticket "key" (VStr (key issue))
       else dict_set ticket field (field_value issue field))
    fields [].

(** Line 237. *)
Definition csv_row (fields : list string) (ticket : dict) : list value :=
  map (fun field => dict_get ticket field (VStr "N/A")) fields.

(** Lines 202-242. *)
Definition render (project_key : string) (fields : list string)
    (total_issues : list Issue) (output_format : string) : option output :=
  if output_format =? "table" then
    Some (Table fields (map (ticket_list fields) total_issues))
  else
    let tickets_data := map (ticket_dict fields) total_issues in
    if output_format =? "csv" then
      Some (CsvFile (project_key ++ "_tickets.csv") fields
              (map (csv_row fields) tickets_data))
    else if output_format =? "json" then
      Some (JsonFile (project_key ++ "_tickets.json") tickets_data)
    else None.

(** What one call leaves: the field list after line 178, the remote
    calls, the issues fetched and the output. *)
Record run : Type := {
  fields_used : list string;
  log : list call;
  total_issues : list Issue;
  out : option output
}.

(** Lines 160-242; [None] when the loop did not end within [fuel]
    iterations. *)
Definition list_tickets (fuel : nat) (jira : JIRA) (project_key : string)
    (fields extra_fields : list string) (output_format : string)
    (filters : list string) (max_results items_per_batch : Z) : option run :=
  let fields := with_key fields in
  let jql_query := build_jql project_key filters in
  let all_fields := (fields ++ extra_fields)%list in
  match loop jira jql_query all_fields max_results items_per_batch fuel 0 0 [] with
  | OutOfFuel _ => None
  | Done total_issues l =>
      Some {| fields_used := fields; log := l; total_issues := total_issues;
              out := render project_key fields total_issues output_format |}
  end.

End Tickets.

(** ** [create_jira_ticket] *)
Module Create.
Import Py PyVal Jira.

(** A path of the local file system, as lines 90-94 meet it: it does not
    exist; or it exists but [open] or [read] raises [e] (a directory, a
    file that may not be read, bytes that do not decode); or it is a file
    that is read, with its text. *)
Inductive file : Type :=
| Missing
| Unreadable (e : exn)
| Text (content : string).

Definition filesystem : Type := string -> file.

(** [if epic_key:] *)
Definition truthy (epic_key : option string) : bool :=
  match epic_key with
  | Some EmptyString | None => false
  | Some _ => true
  end.

Record run : Type := {
  log : list call;
  echoed : list string;
  returned : M Issue
}.

(** Lines 71-111. *)
Definition create_jira_ticket (fs : filesystem) (jira : JIRA)
    (project_key summary description_file_path priority : string)
    (epic_key : option string) (issue_type : string) : run :=
  match fs description_file_path with
  | Missing => {| log := []; echoed := []; returned := raise FileNotFoundError |}
  | Unreadable e => {| log := []; echoed := []; returned := raise e |}
  | Text description =>
      let issue_fields :=
        {| f_project := project_key; f_summary := summary;
           f_description := description; f_issuetype := issue_type;
           f_priority := priority |} in
      let issue := create_issue jira issue_fields in
      let created := "Created issue " ++ key issue in
      match epic_key with
      | Some (String _ _ as epic) =>
          {| log := [CallCreateIssue issue_fields;
                     CallAddIssuesToEpic epic [key issue]];
             echoed := [created;
                        "Issue " ++ key issue ++ " linked to epic " ++ epic];
             returned := ret issue |}
      | _ =>
          {| log := [CallCreateIssue issue_fields];
             echoed := [created];
             returned := ret issue |}
      end
  end.

End Create.

(** ** The filter as the specification words it

    Section 4.3 of the specification: a token is [field:value]; the field
    is one of author, text and date; a comment passes an author or text
    token when the value occurs in the display name or the body without
    regard to case, and a date token when its calendar day is within the
    two bounds, or equal to the value when there is no range.  Two cases
    the section leaves open are settled the way the code settles them: a
    comment without display name passes an author token, and a range that
    does not split into exactly two bounds is passed by every comment. *)
Module FilterSpec.
Import PyStr Jira.

Inductive field : Type := Author | Text | Date.

(** A token is parseable when it has the separator and one of the three
    field names. *)
Definition parse (token : string) : option (field * string) :=
  match partition ":" token with
  | None => None
  | Some (f, v) =>
      let f := strip (lower f) in
      let v := strip_quotes (lower v) in
      if f =? "author" then Some (Author, v)
      else if f =? "text" then Some (Text, v)
      else if f =? "date" then Some (Date, v)
      else None
  end.

(** The calendar day of a comment. *)
Definition day (c : Comment) : string := take 10 (created c).

Definition passes (c : Comment) (f : field) (v : string) : bool :=
  match f with
  | Author =>
      match author_displayName c with
      | Some name => contains v (lower name)
      | None => true
      end
  | Text => contains v (lower (body c))
  | Date =>
      if contains "to" v then
        match split "to" v with
        | [lo; hi] => String.leb (strip lo) (day c) && String.leb (day c) (strip hi)
        | _ => true
        end
      else day c =? v
  end.

(** A comment passes every token that is not parseable. *)
Definition accepts (c : Comment) (token : string) : bool :=
  match parse token with
  | Some (f, v) => passes c f v
  | None => true
  end.

(** What is shown of a comment: its id, the display name of its
    author, its timestamp to the second and its body, which a table
    row cuts at 50 characters. *)
Definition author (c : Comment) : string :=
  match author_displayName c with
  | Some name => name
  | None => EmptyString
  end.

Definition shown_dict (c : Comment) : PyVal.dict :=
  [("id", PyVal.VStr (id c)); ("author", PyVal.VStr (author c));
   ("date", PyVal.VStr (take 19 (created c))); ("body", PyVal.VStr (body c))].

Definition shown_row (c : Comment) : list PyVal.value :=
  [PyVal.VStr (id c); PyVal.VStr (author c); PyVal.VStr (take 19 (created c));
   PyVal.VStr (take 50 (body c)
               ++ (if (50 <? String.length (body c))%nat then "..." else ""))].

(** The first [n] elements, all of them when [n] is 0 (or below). *)
Definition first (n : Z) {A} (l : list A) : list A :=
  if (n <=? 0)%Z then l else firstn (Z.to_nat n) l.

(** Every way of writing [s] as [a ++ sep ++ b]. *)
Fixpoint cuts (sep s : string) : list (string * string) :=
  ((if prefix sep s then [(EmptyString, drop (String.length sep) s)] else [])
   ++ match s with
      | EmptyString => []
      | String c r => map (fun ab => (String c (fst ab), snd ab)) (cuts sep r)
      end)%list.

End FilterSpec.

(** ** Sample data used by the closed statements below *)
Module Sample.
Import PyVal Jira.

Definition comment (name : option string) (stamp text : string) : Comment :=
  {| id := "10001"; author_displayName := name; created := stamp; body := text |}.

Definition january : Comment :=
  comment (Some "Bob Smith") "2023-01-15T10:00:00.000+0000" "Deployed to staging".
Definition february : Comment :=
  comment (Some "Alice Jones") "2023-02-01T09:30:00.000+0000" "Rolled back".
Definition anonymous : Comment :=
  comment None "2023-01-20T08:00:00.000+0000" "Imported".

Definition ticket (k summary : string) : Issue :=
  {| key := k;
     fields := VObj "fields"
                 [("summary", VStr summary);
                  ("status", VObj "Open" [("name", VStr "Open")]);
                  ("assignee", VNone);
                  ("key", VObj "shadow" [])] |}.

(** A service holding [db], which answers a search with the slice asked
    for. *)
Definition serving (db : list Issue) (cs : list Comment) : JIRA :=
  {| search_issues := fun _ r =>
       {| items := firstn (Z.to_nat (maxResults r)) (skipn (Z.to_nat (startAt r)) db);
          total := len db |};
     issue := fun k => ticket k "";
     comments := fun _ => cs;
     create_issue := fun f => ticket (f_project f ++ "-1") (f_summary f) |}.

(** A service that answers every search with the same [page], whatever
    was asked, and reports [n] matches. *)
Definition stubborn (page : list Issue) (n : Z) : JIRA :=
  {| search_issues := fun _ _ => {| items := page; total := n |};
     issue := fun k => ticket k "";
     comments := fun _ => [];
     create_issue := fun f => ticket (f_project f ++ "-1") (f_summary f) |}.

(** A service whose [k]-th search returns nothing and every other
    search returns [page]. *)
Definition stale (page : list Issue) (n : Z) (k : nat) : JIRA :=
  {| search_issues := fun i _ =>
       {| items := if Nat.eqb i k then [] else page; total := n |};
     issue := fun key => ticket key "";
     comments := fun _ => [];
     create_issue := fun f => ticket (f_project f ++ "-1") (f_summary f) |}.

(** A service that reports [n] matches and always has as many records
    as a request asks for. *)
Definition generous (n : Z) : JIRA :=
  {| search_issues := fun _ r =>
       {| items := repeat (ticket "PROJ-1" "Fix login") (Z.to_nat (maxResults r));
          total := n |};
     issue := fun key => ticket key "";
     comments := fun _ => [];
     create_issue := fun f => ticket (f_project f ++ "-1") (f_summary f) |}.

Definition files (path : string) : Create.file :=
  if path =? "description.md" then Create.Text "Port the module."
  else if path =? "docs" then Create.Unreadable Py.IsADirectoryError
  else Create.Missing.

End Sample.

(** ** Words of the specification about fetching and projecting *)
Module FetchSpec.
Import PyVal Jira.

(** Every request is answered with as many records as it asks for. *)
Definition full_batches (jira : JIRA) : Prop :=
  forall n r, 0 <= maxResults r -> len (items (search_issues jira n r)) = maxResults r.

(** Every request for one record at least that lies within [total], from
    an offset of 0 or above, is answered with as many records as it asks
    for; nothing is said of the requests that reach beyond [total]. *)
Definition fills_within (jira : JIRA) (total : Z) : Prop :=
  forall n r,
    0 <= startAt r -> 1 <= maxResults r -> startAt r + maxResults r <= total ->
    len (items (search_issues jira n r)) = maxResults r.

(** No request is answered with more records than it asks for. *)
Definition never_more (jira : JIRA) : Prop :=
  forall n r, len (items (search_issues jira n r)) <= Z.max 0 (maxResults r).

(** The batches of section 4.4: offset and size of each request, from
    [start_at] on, when every batch comes back full. *)
Fixpoint plan (items_per_batch total : Z) (fuel : nat) (start_at : Z) : list (Z * Z) :=
  if (start_at <? total)%Z then
    match fuel with
    | O => []
    | S fuel' =>
        let size := Z.min items_per_batch (total - start_at) in
        (start_at, size) :: plan items_per_batch total fuel' (start_at + size)
    end
  else [].

(** The batch request at an offset, of a size. *)
Definition batch (jql_query : string) (fields : list string) (p : Z * Z) : call :=
  CallSearch {| jql := jql_query; req_fields := fields;
                startAt := fst p; maxResults := snd p |}.



End FetchSpec.

(** ** [get_jira_client] *)
Module Client.
Import Py.

(** What the function reads: the dictionary loaded from the configuration
    file, and the environment; both give a text for a name, or nothing. *)
Definition settings : Type := string -> option string.

(** [config.get(name, os.getenv(name))] *)
Definition get (config environ : settings) (name : string) : option string :=
  match config name with
  | Some v => Some v
  | None => environ name
  end.

(** [not v] *)
Definition falsy (v : option string) : bool :=
  match v with
  | None | Some EmptyString => true
  | Some _ => false
  end.

Definition text (v : option string) : string :=
  match v with
  | Some s => s
  | None => EmptyString
  end.

(** The arguments the client is built with. *)
Record client : Type := {
  server : string;
  basic_auth : string * string
}.

(** Lines 29-49. *)
Definition get_jira_client (config environ : settings) : M client :=
  let jira_url := get config environ "JIRA_URL" in
  let username := get config environ "JIRA_USERNAME" in
  let api_token := get config environ "JIRA_API_TOKEN" in
  if falsy jira_url || falsy username || falsy api_token
  then raise ValueError
  else ret {| server := text jira_url;
              basic_auth := (text username, text api_token) |}.

End Client.

(** ** [retrieve_ticket_fields] *)
Module Retrieve.
Import Py PyVal Jira Fields.

(** Lines 142-144: the value kept for a field. *)
Definition retrieved (issue : Issue) (field_name : string) : value :=
  let field_value := safe_getattr (fields issue) field_name (VStr "Field not found") in
  if has_dict field_value then str field_value else field_value.

(** Lines 127-146: the remote call and the dictionary returned. *)
Definition retrieve_ticket_fields (jira : JIRA) (issue_key : string)
    (field_names : list string) : list call * dict :=
  let issue := Jira.issue jira issue_key in
  ([CallIssue issue_key],
   fold_left (fun result field_name => dict_set result field_name (retrieved issue field_name))
     field_names []).

End Retrieve.

(** ** The commands [list] and [create] *)
Module Cli.
Import Py PyVal Jira.

(** The double quote, which [value.strip] is given at line 459. *)
Definition is_dquote (c : ascii) : bool := (N_of_ascii c =? 34)%N.

(** Lines 458-460: one [--filter] option turned into a clause. *)
Definition list_filter (f : string) : M string :=
  '(key, value) <- unpack2 (PyStr.split1 ":" f) ;;
  let value := PyStr.strip_by is_dquote value in
  ret (key ++ " = '" ++ value ++ "'").

(** Lines 442-462, once the client is there: [None] inside stands for a
    fetch loop that [fuel] iterations did not end. *)
Definition list_command (fuel : nat) (jira : JIRA) (project_key fields : string)
    (filter : list string) (output : string) : M (option Tickets.run) :=
  let fields := PyStr.split "," fields in
  filters <- Comments.mapM list_filter filter ;;
  ret (Tickets.list_tickets fuel jira project_key fields [] output filters 0 50).

(** How the command [create] ends: the client could not be built, or no
    project key was found (the error is echoed and line 488 then names
    [sys], which the module does not import), or [create_jira_ticket]
    ran. *)
Inductive created : Type :=
| NoClient (e : exn)
| NameError (echoed : list string)
| Ran (r : Create.run).

(** The remote calls issued by the command. *)
Definition calls (c : created) : list call :=
  match c with
  | Ran r => Create.log r
  | _ => []
  end.

(** [a or b] *)
Definition or_else (a b : option string) : option string :=
  if Create.truthy a then a else b.

(** Lines 472-490. *)
Definition create_command (fs : Create.filesystem) (config environ : Client.settings)
    (jira : JIRA) (module_name description_file priority : string)
    (epic_key project_key : option string) (issue_type : string) : created :=
  match Client.get_jira_client config environ with
  | inl e => NoClient e
  | inr _ =>
      let project_key :=
        or_else project_key (Client.get config environ "JIRA_PROJECT_KEY") in
      if negb (Create.truthy project_key)
      then NameError ["Error: No project key provided."]
      else
        let summary := "Update " ++ module_name ++ " for Python 3.12 Compatibility" in
        Ran (Create.create_jira_ticket fs jira (Client.text project_key) summary
               description_file priority epic_key issue_type)
  end.

End Cli.

(** ** Readings of a log and of an output *)
Module Shape.
Import PyVal Jira.

(** The offsets and the sizes asked for by the searches of a log. *)
Definition offsets (l : list call) : list Z :=
  flat_map (fun c => match c with CallSearch r => [startAt r] | _ => [] end) l.

Definition sizes (l : list call) : list Z :=
  flat_map (fun c => match c with CallSearch r => [maxResults r] | _ => [] end) l.

(** The records the service returned to the searches of a log, the first
    of which is search number [n], one answer after the other. *)
Fixpoint responses (jira : JIRA) (n : nat) (l : list call) : list Issue :=
  match l with
  | [] => []
  | CallSearch r :: l' => (items (search_issues jira n r) ++ responses jira (S n) l')%list
  | _ :: l' => responses jira n l'
  end.

(** A batch request of between 1 and [items_per_batch] records that ends
    within [total]. *)
Definition batch_within (items_per_batch total : Z) (c : call) : Prop :=
  match c with
  | CallSearch r =>
      1 <= maxResults r <= items_per_batch /\ startAt r + maxResults r <= total
  | _ => False
  end.

(** A search for [items_per_batch] records at most. *)
Definition size_at_most (items_per_batch : Z) (c : call) : Prop :=
  match c with
  | CallSearch r => maxResults r <= items_per_batch
  | _ => False
  end.

(** A list cut at a positive maximum. *)
Definition trim (max_results : Z) {A} (l : list A) : list A :=
  if max_results >? 0 then firstn (Z.to_nat max_results) l else l.

(** The names of a list, each at its first place only. *)
Definition distinct (l : list string) : list string :=
  fold_left (fun ks k => if Fields.mem k ks then ks else (ks ++ [k])%list) l [].

(** Every value an output holds. *)
Definition output_values (o : output) : list value :=
  match o with
  | Table _ rows => concat rows
  | CsvFile _ _ rows => concat rows
  | JsonFile _ objects => map snd (concat objects)
  end.

End Shape.

(** * Properties *)

(** ** Strings *)
Section StringFacts.
Import PyStr.

Lemma append_empty_r (s : string) : s ++ "" = s.
Proof. induction s as [|c s IH]; simpl; [reflexivity | now rewrite IH]. Qed.

Lemma append_assoc (a b c : string) : (a ++ b) ++ c = a ++ b ++ c.
Proof. induction a as [|x a IH]; simpl; [reflexivity | now rewrite IH]. Qed.

Lemma prefix_append (a b : string) : prefix a (a ++ b) = true.
Proof.
  induction a as [|x a IH]; simpl.
  - now destruct b.
  - destruct (ascii_dec x x) as [_|N]; [exact IH | now elim N].
Qed.

Lemma drop_append (a b : string) : drop (String.length a) (a ++ b) = b.
Proof. induction a as [|x a IH]; simpl; [reflexivity | exact IH]. Qed.

(** A value without the separator is a single piece. *)
Lemma split_go_absent (sep s cur : string) :
  contains sep s = false -> split_go sep 0 cur s = [cur ++ s].
Proof.
  revert cur; induction s as [|c r IH]; intros cur H.
  - simpl. now rewrite append_empty_r.
  - cbn [contains] in H. apply orb_false_iff in H as [Hp Hr].
    cbn [split_go]. rewrite Hp, (IH _ Hr), append_assoc. reflexivity.
Qed.

Lemma split_absent (sep s : string) :
  contains sep s = false -> split sep s = [s].
Proof. intros H. unfold split. now rewrite split_go_absent. Qed.

(** So two pieces mean that the separator occurs. *)
Lemma split_two_contains (sep s a b : string) :
  split sep s = [a; b] -> contains sep s = true.
Proof.
  intros H. destruct (contains sep s) eqn:E; [reflexivity|].
  rewrite (split_absent _ _ E) in H. discriminate.
Qed.

Lemma cuts_head (sep s : string) :
  prefix sep s = true ->
  In (EmptyString, drop (String.length sep) s) (FilterSpec.cuts sep s).
Proof. intros H. destruct s; cbn [FilterSpec.cuts]; rewrite H; now left. Qed.

Lemma cuts_complete (sep a b : string) :
  In (a, b) (FilterSpec.cuts sep (a ++ sep ++ b)).
Proof.
  induction a as [|x a IH]; cbn [append].
  - rewrite <- (drop_append sep b) at 1. apply cuts_head, prefix_append.
  - cbn [FilterSpec.cuts]. apply in_or_app. right.
    apply (in_map (fun ab => (String x (fst ab), snd ab)) _ (a, b)), IH.
Qed.

(** [not (a < b)] is [b <= a]. *)
Lemma not_lt_leb (a b : string) : negb (lt a b) = String.leb b a.
Proof.
  unfold lt, String.ltb, String.leb. rewrite (String.compare_antisym b a).
  now destruct (String.compare a b).
Qed.

Lemma not_gt_leb (a b : string) : negb (gt a b) = String.leb a b.
Proof.
  unfold gt, String.ltb, String.leb. rewrite (String.compare_antisym a b).
  now destruct (String.compare b a).
Qed.

End StringFacts.

(** ** The comment filter *)
Section FilterFacts.
Import Py PyStr Jira Comments.

(** The code excludes on a token exactly when the specification's
    reading of the token rejects the comment. *)
Lemma try_filter_accepts (c : Comment) (token : string) :
  is_break (try_filter c token) = negb (FilterSpec.accepts c token).
Proof.
  unfold try_filter, FilterSpec.accepts, FilterSpec.parse, split1.
  destruct (partition ":" token) as [[f v]|]; [|reflexivity].
  cbn [unpack2 bind ret].
  set (f' := strip (lower f)). set (v' := strip_quotes (lower v)).
  destruct (String.eqb_spec f' "author") as [Ea|Na].
  { rewrite Ea. cbn [FilterSpec.passes]. unfold get_displayName.
    destruct (author_displayName c) as [name|]; cbn [bind ret raise is_break];
      [|reflexivity].
    now destruct (contains v' (lower name)). }
  cbn [bind ret].
  destruct (String.eqb_spec f' "text") as [Et|Nt].
  { rewrite Et. cbn [FilterSpec.passes andb].
    now destruct (contains v' (lower (body c))). }
  cbn [andb].
  destruct (String.eqb_spec f' "date") as [Ed|Nd]; [|reflexivity].
  cbn [FilterSpec.passes]. fold (FilterSpec.day c).
  destruct (contains "to" v').
  - destruct (split "to" v') as [|lo [|hi [|x l]]]; try reflexivity.
    cbn [unpack2 bind ret].
    rewrite <- not_lt_leb, <- not_gt_leb.
    now destruct (lt (FilterSpec.day c) (strip lo)), (gt (FilterSpec.day c) (strip hi)).
  - now destruct (FilterSpec.day c =? v').
Qed.

(** The loop with [break] and [continue] computes the conjunction. *)
Lemma filter_loop_forallb (c : Comment) (filters : list string) :
  fst (filter_loop c filters) = forallb (FilterSpec.accepts c) filters.
Proof.
  induction filters as [|t rest IH]; [reflexivity|].
  cbn [filter_loop forallb].
  pose proof (try_filter_accepts c t) as H.
  destruct (try_filter c t) as [e|[|]]; cbn [is_break] in H.
  - destruct (filter_loop c rest) as [b w]. cbn [fst] in *.
    apply (f_equal negb) in H. rewrite negb_involutive in H.
    now rewrite <- H, IH.
  - apply (f_equal negb) in H. rewrite negb_involutive in H.
    now rewrite <- H.
  - apply (f_equal negb) in H. rewrite negb_involutive in H.
    now rewrite <- H, IH.
Qed.

Lemma filter_comments_filter (comments : list Comment) (filters : list string) :
  fst (filter_comments comments filters)
  = filter (fun c => forallb (FilterSpec.accepts c) filters) comments.
Proof.
  induction comments as [|c rest IH]; [reflexivity|].
  cbn [filter_comments filter]. rewrite <- filter_loop_forallb, <- IH.
  destruct (filter_loop c filters) as [b w].
  destruct (filter_comments rest filters) as [fc ws].
  now destruct b.
Qed.

(** A token whose evaluation raises is reported when it is reached, that
    is when no token before it excludes the comment. *)
Lemma filter_loop_warns (c : Comment) (pre post : list string) (token : string) (e : exn) :
  forallb (FilterSpec.accepts c) pre = true ->
  try_filter c token = inl e ->
  In (token, e) (snd (filter_loop c (pre ++ token :: post))).
Proof.
  induction pre as [|t pre IH]; intros Hpre Ht.
  - cbn [app filter_loop]. rewrite Ht.
    destruct (filter_loop c post). now left.
  - cbn [forallb] in Hpre. apply andb_true_iff in Hpre as [Hacc Hpre].
    pose proof (try_filter_accepts c t) as H. rewrite Hacc in H.
    cbn [app filter_loop].
    destruct (try_filter c t) as [e'|[|]]; cbn [is_break negb] in H.
    + specialize (IH Hpre Ht).
      destruct (filter_loop c (pre ++ token :: post)). now right.
    + discriminate.
    + exact (IH Hpre Ht).
Qed.

Lemma filter_comments_warns (comments : list Comment) (filters : list string)
      (c : Comment) (w : warning) :
  In c comments -> In w (snd (filter_loop c filters)) ->
  In w (snd (filter_comments comments filters)).
Proof.
  induction comments as [|c' rest IH]; intros Hc Hw; [contradiction|].
  cbn [filter_comments].
  destruct (filter_loop c' filters) as [b ws] eqn:E.
  destruct (filter_comments rest filters) as [fc wr].
  cbn [snd] in *. apply in_or_app.
  destruct Hc as [->|Hc].
  - left. now rewrite E in Hw.
  - right. now apply IH.
Qed.

(** The warnings of a run are those of each comment, one comment after
    the other. *)
Lemma filter_comments_warnings (comments : list Comment) (filters : list string) :
  snd (filter_comments comments filters)
  = flat_map (fun c => snd (filter_loop c filters)) comments.
Proof.
  induction comments as [|c rest IH]; [reflexivity|].
  cbn [filter_comments flat_map]. rewrite <- IH.
  destruct (filter_loop c filters) as [b w].
  now destruct (filter_comments rest filters) as [fc ws].
Qed.

(** A token without the separator raises [ValueError]. *)
Lemma try_filter_no_separator (c : Comment) (token : string) :
  partition ":" token = None -> try_filter c token = inl ValueError.
Proof. intros H. unfold try_filter, split1. now rewrite H. Qed.

Lemma accepts_all_In (c : Comment) (filters : list string) (token : string) :
  forallb (FilterSpec.accepts c) filters = true -> In token filters ->
  FilterSpec.accepts c token = true.
Proof. intros H Hin. rewrite forallb_forall in H. now apply H. Qed.

Lemma kept_iff (comments : list Comment) (filters : list string) (c : Comment) :
  In c (fst (filter_comments comments filters))
  <-> In c comments /\ forallb (FilterSpec.accepts c) filters = true.
Proof. rewrite filter_comments_filter. apply filter_In. Qed.

End FilterFacts.

(** C1, as amended.  The filtered comments are exactly the comments that
    pass every parseable token, in their order; a token that is not
    parseable (no separator, or a field that is not author, text or date)
    never makes the code exclude a comment; the warnings of a run are the
    warnings of each comment, one comment after the other; and among the
    warnings of a comment there is a [ValueError] warning for every token
    without the separator that the tokens before it do not exclude the
    comment from reaching. *)
Theorem C1_filter_is_conjunction :
  forall (comments : list Jira.Comment) (filters : list string),
    fst (Comments.filter_comments comments filters)
    = filter (fun c => forallb (FilterSpec.accepts c) filters) comments
    /\ (forall c token,
          FilterSpec.parse token = None ->
          Comments.try_filter c token <> inr Comments.Break)
    /\ snd (Comments.filter_comments comments filters)
       = flat_map (fun c => snd (Comments.filter_loop c filters)) comments
    /\ (forall c pre token post,
          filters = (pre ++ token :: post)%list ->
          forallb (FilterSpec.accepts c) pre = true ->
          PyStr.partition ":" token = None ->
          In (token, Py.ValueError) (snd (Comments.filter_loop c filters))).
Proof.
  intros comments filters. split; [apply filter_comments_filter|]. split; [|split].
  - intros c token Hp Hb.
    pose proof (try_filter_accepts c token) as H.
    rewrite Hb in H. unfold FilterSpec.accepts in H. rewrite Hp in H. discriminate.
  - apply filter_comments_warnings.
  - intros c pre token post -> Hpre Hsep.
    apply filter_loop_warns; [exact Hpre|].
    now apply try_filter_no_separator.
Qed.

Lemma C1_filter_is_conjunction_witness :
  fst (Comments.filter_comments [Sample.january; Sample.february]
         ["nocolon"; "status:done"; "author:bob"])
  = [Sample.january]
  /\ Comments.try_filter Sample.january "status:done" <> inr Comments.Break
  /\ In ("nocolon", Py.ValueError)
        (snd (Comments.filter_loop Sample.february
                ["nocolon"; "status:done"; "author:bob"])).
Proof.
  destruct (C1_filter_is_conjunction [Sample.january; Sample.february]
              ["nocolon"; "status:done"; "author:bob"]) as (H1 & H2 & _ & H3).
  split; [rewrite H1; reflexivity|]. split.
  - apply H2. reflexivity.
  - apply (H3 Sample.february [] "nocolon" ["status:done"; "author:bob"]).
    + reflexivity.
    + reflexivity.
    + reflexivity.
Defined.

(** C1, as stated, fails.  A token whose field is none of the three names
    is never reported: the chain of tests falls through without raising.
    And a token without the separator is not reported for a comment that
    an earlier token already excluded, the loop having left by then. *)
Lemma C1_counterexample :
  FilterSpec.parse "status:done" = None
  /\ Comments.filter_comments [Sample.january] ["status:done"] = ([Sample.january], [])
  /\ PyStr.partition ":" "nocolon" = None
  /\ Comments.filter_comments [Sample.january] ["author:alice"; "nocolon"] = ([], []).
Proof. repeat split. Qed.

(** C4, as amended.  For a date token of a filter list, a comment that is
    kept has its calendar day within the two bounds, blanks trimmed, when
    the value (lowered, quotes stripped) splits on the separator into
    exactly two pieces, and has its day equal to the value when the value
    does not contain the separator.  The range of January 2023 keeps a
    comment of the 15th of January and drops one of the 1st of February. *)
Theorem C4_date_token :
  (forall (comments : list Jira.Comment) (filters : list string) c token f v,
      PyStr.partition ":" token = Some (f, v) ->
      PyStr.strip (PyStr.lower f) = "date" ->
      In token filters ->
      In c (fst (Comments.filter_comments comments filters)) ->
      (forall lo hi,
          PyStr.split "to" (PyStr.strip_quotes (PyStr.lower v)) = [lo; hi] ->
          String.leb (PyStr.strip lo) (FilterSpec.day c) = true
          /\ String.leb (FilterSpec.day c) (PyStr.strip hi) = true)
      /\ (PyStr.contains "to" (PyStr.strip_quotes (PyStr.lower v)) = false ->
          FilterSpec.day c = PyStr.strip_quotes (PyStr.lower v)))
  /\ (forall c, FilterSpec.day c = "2023-01-15" ->
        Comments.filter_comments [c] ["date:2023-01-01 to 2023-01-31"] = ([c], []))
  /\ (forall c, FilterSpec.day c = "2023-02-01" ->
        Comments.filter_comments [c] ["date:2023-01-01 to 2023-01-31"] = ([], [])).
Proof.
  split; [|split].
  - intros comments filters c token f v Hp Hf Hin Hkept.
    apply kept_iff in Hkept as [_ Hall].
    pose proof (accepts_all_In _ _ _ Hall Hin) as Hacc.
    unfold FilterSpec.accepts, FilterSpec.parse in Hacc.
    rewrite Hp, Hf in Hacc. cbn [String.eqb Ascii.eqb Bool.eqb] in Hacc.
    cbn [FilterSpec.passes] in Hacc.
    split.
    + intros lo hi Hs.
      rewrite (split_two_contains _ _ _ _ Hs), Hs in Hacc.
      now apply andb_true_iff in Hacc.
    + intros Hno. rewrite Hno in Hacc. now apply String.eqb_eq.
  - intros c Hd. unfold FilterSpec.day in Hd.
    cbn [Comments.filter_comments Comments.filter_loop].
    unfold Comments.try_filter. rewrite Hd. reflexivity.
  - intros c Hd. unfold FilterSpec.day in Hd.
    cbn [Comments.filter_comments Comments.filter_loop].
    unfold Comments.try_filter. rewrite Hd. reflexivity.
Qed.

Lemma C4_date_token_witness :
  String.leb "2023-01-01" (FilterSpec.day Sample.january) = true
  /\ String.leb (FilterSpec.day Sample.january) "2023-01-31" = true.
Proof.
  destruct C4_date_token as [H _].
  destruct (H [Sample.january; Sample.february]
              ["text:deployed"; "date:'2023-01-01 TO 2023-01-31'"]
              Sample.january "date:'2023-01-01 TO 2023-01-31'"
              "date" "'2023-01-01 TO 2023-01-31'") as [Hrange _].
  - reflexivity.
  - reflexivity.
  - right. now left.
  - now left.
  - exact (Hrange "2023-01-01 " " 2023-01-31" eq_refl).
Defined.

(** C4, as stated, fails.  The value below contains the separator, twice:
    the unpacking into two bounds raises, the token is skipped with a
    warning, and a comment of February is kept although its day is within
    the bounds of no way of cutting the value in two at a separator. *)
Lemma C4_counterexample :
  PyStr.partition ":" "date:2023-01-01 to 2023-01-31 to"
  = Some ("date", "2023-01-01 to 2023-01-31 to")
  /\ PyStr.contains "to" "2023-01-01 to 2023-01-31 to" = true
  /\ Comments.filter_comments [Sample.february] ["date:2023-01-01 to 2023-01-31 to"]
     = ([Sample.february], [("date:2023-01-01 to 2023-01-31 to", Py.ValueError)])
  /\ forall lo hi,
       "2023-01-01 to 2023-01-31 to" = lo ++ "to" ++ hi ->
       String.leb (PyStr.strip lo) (FilterSpec.day Sample.february)
       && String.leb (FilterSpec.day Sample.february) (PyStr.strip hi) = false.
Proof.
  repeat split.
  intros lo hi H.
  pose proof (cuts_complete "to" lo hi) as Hin. rewrite <- H in Hin.
  assert (Hall : forallb
                   (fun ab => negb (String.leb (PyStr.strip (fst ab)) (FilterSpec.day Sample.february)
                                    && String.leb (FilterSpec.day Sample.february) (PyStr.strip (snd ab))))
                   (FilterSpec.cuts "to" "2023-01-01 to 2023-01-31 to") = true)
    by reflexivity.
  rewrite forallb_forall in Hall. specialize (Hall _ Hin). cbn [fst snd] in Hall.
  now apply negb_true_iff in Hall.
Qed.

(** C5, as amended.  For an author token of a filter list: a comment with
    a display name in which the value (lowered, quotes stripped) does not
    occur, case ignored, is not kept; for a comment without display name
    the token raises [AttributeError], is reported and skipped, so that
    the comment is kept or not as the other tokens decide. *)
Theorem C5_author_token :
  forall (comments : list Jira.Comment) (filters : list string) c token f v,
    PyStr.partition ":" token = Some (f, v) ->
    PyStr.strip (PyStr.lower f) = "author" ->
    (forall name,
        Jira.author_displayName c = Some name ->
        PyStr.contains (PyStr.strip_quotes (PyStr.lower v)) (PyStr.lower name) = false ->
        In token filters ->
        ~ In c (fst (Comments.filter_comments comments filters)))
    /\ (Jira.author_displayName c = None ->
        forall rest,
          Comments.filter_loop c (token :: rest)
          = (fst (Comments.filter_loop c rest),
             (token, Py.AttributeError) :: snd (Comments.filter_loop c rest))).
Proof.
  intros comments filters c token f v Hp Hf. split.
  - intros name Hname Hno Hin Hkept.
    apply kept_iff in Hkept as [_ Hall].
    pose proof (accepts_all_In _ _ _ Hall Hin) as Hacc.
    unfold FilterSpec.accepts, FilterSpec.parse in Hacc.
    rewrite Hp, Hf in Hacc. cbn [String.eqb Ascii.eqb Bool.eqb] in Hacc.
    cbn [FilterSpec.passes] in Hacc. rewrite Hname, Hno in Hacc. discriminate.
  - intros Hnone rest. cbn [Comments.filter_loop].
    unfold Comments.try_filter, PyStr.split1. rewrite Hp. cbn [Py.unpack2 Py.bind Py.ret].
    rewrite Hf. cbn [String.eqb Ascii.eqb Bool.eqb].
    unfold Comments.get_displayName. rewrite Hnone. cbn [Py.bind Py.raise].
    now destruct (Comments.filter_loop c rest).
Qed.

Lemma C5_author_token_witness :
  ~ In Sample.january
       (fst (Comments.filter_comments [Sample.january; Sample.february] ["Author:'ALICE'"]))
  /\ Comments.filter_loop Sample.anonymous ["Author:'ALICE'"; "text:imported"]
     = (true, [("Author:'ALICE'", Py.AttributeError)]).
Proof.
  split.
  - destruct (C5_author_token [Sample.january; Sample.february] ["Author:'ALICE'"]
                Sample.january "Author:'ALICE'" "Author" "'ALICE'" eq_refl eq_refl) as [H _].
    apply (H "Bob Smith"); [reflexivity | reflexivity | now left].
  - destruct (C5_author_token [] [] Sample.anonymous "Author:'ALICE'" "Author" "'ALICE'"
                eq_refl eq_refl) as [_ H].
    rewrite (H eq_refl ["text:imported"]). reflexivity.
Defined.

(** C5, as stated, fails: a comment without display name is kept by an
    author token, with a warning. *)
Lemma C5_counterexample :
  Jira.author_displayName Sample.anonymous = None
  /\ Comments.filter_comments [Sample.anonymous] ["author:bob"]
     = ([Sample.anonymous], [("author:bob", Py.AttributeError)]).
Proof. split; reflexivity. Qed.

(** ** The cap and the data returned by [get_ticket_comments] *)
Section CommentsFacts.
Import Py PyVal Jira Comments.

Lemma cap_first (max_results : Z) (l : list Comment) :
  cap max_results l = FilterSpec.first max_results l.
Proof.
  unfold cap, FilterSpec.first, len.
  destruct (Z.leb_spec max_results 0) as [Hle|Hgt];
    destruct (Z.gtb_spec max_results 0); try lia; cbn [andb]; [reflexivity|].
  destruct (Z.gtb_spec (Z.of_nat (List.length l)) max_results).
  - reflexivity.
  - symmetry. apply firstn_all2. lia.
Qed.

Lemma comment_dict_shown (c : Comment) :
  author_displayName c <> None -> comment_dict c = inr (FilterSpec.shown_dict c).
Proof.
  intros H. unfold comment_dict, get_displayName, FilterSpec.shown_dict, FilterSpec.author.
  now destruct (author_displayName c).
Qed.

Lemma comment_row_shown (c : Comment) :
  author_displayName c <> None -> comment_row c = inr (FilterSpec.shown_row c).
Proof.
  intros H. unfold comment_row. rewrite (comment_dict_shown c H). reflexivity.
Qed.

Lemma mapM_total {A B} (f : A -> M B) (g : A -> B) (P : A -> Prop) (l : list A) :
  (forall a, P a -> f a = inr (g a)) -> Forall P l -> mapM f l = inr (map g l).
Proof.
  intros Hf Hl. induction Hl as [|a l Ha _ IH]; [reflexivity|].
  cbn [mapM map]. rewrite (Hf a Ha). cbn [bind]. rewrite IH. reflexivity.
Qed.

Lemma mapM_raises {A B} (f : A -> M B) (e : exn) (P : A -> Prop) (l : list A) :
  (forall a, f a = inl e \/ exists b, f a = inr b) ->
  (forall a, P a -> f a = inl e) -> Exists P l -> mapM f l = inl e.
Proof.
  intros Hf HP Hl. induction l as [|a l IH]; [inversion Hl|].
  cbn [mapM]. destruct (Hf a) as [E|[b E]]; rewrite E; cbn [bind]; [reflexivity|].
  inversion Hl as [? ? Ha|? ? Hl']; subst.
  - rewrite (HP a Ha) in E. discriminate.
  - now rewrite (IH Hl').
Qed.

Lemma comment_dict_cases (c : Comment) :
  comment_dict c = inl AttributeError \/ exists d, comment_dict c = inr d.
Proof.
  unfold comment_dict, get_displayName.
  destruct (author_displayName c); [right; eexists; reflexivity | now left].
Qed.

Lemma comment_row_cases (c : Comment) :
  comment_row c = inl AttributeError \/ exists d, comment_row c = inr d.
Proof.
  unfold comment_row.
  destruct (comment_dict_cases c) as [E|[d E]]; rewrite E;
    [now left | right; eexists; reflexivity].
Qed.

Lemma comment_dict_anonymous (c : Comment) :
  author_displayName c = None -> comment_dict c = inl AttributeError.
Proof. intros H. unfold comment_dict, get_displayName. now rewrite H. Qed.

Lemma comment_row_anonymous (c : Comment) :
  author_displayName c = None -> comment_row c = inl AttributeError.
Proof. intros H. unfold comment_row. now rewrite comment_dict_anonymous. Qed.

End CommentsFacts.

(** C10.  [get_ticket_comments] fetches the comments in one call, filters
    them, and only then applies the cap: the data returned shows the first
    [max_results] comments that passed the filters, all of them when
    [max_results] is 0, one entry per comment in order.  (The function
    returns when each of these comments has a display name, and raises
    [AttributeError] when one has none.) *)
Theorem C10_cap_after_filter :
  forall (jira : Jira.JIRA) (issue_key : string) (filters : list string)
         (max_results : Z) (output_format : string),
    let r := Comments.get_ticket_comments jira issue_key filters max_results output_format in
    let fetched := Jira.comments jira (Jira.issue jira issue_key) in
    let kept := FilterSpec.first max_results
                  (filter (fun c => forallb (FilterSpec.accepts c) filters) fetched) in
    Comments.log r = [Jira.CallIssue issue_key; Jira.CallComments (Jira.issue jira issue_key)]
    /\ (Forall (fun c => Jira.author_displayName c <> None) kept ->
        exists out,
          Comments.returned r
          = inr (if output_format =? "table"
                 then inl (map FilterSpec.shown_row kept)
                 else inr (map FilterSpec.shown_dict kept), out))
    /\ (Exists (fun c => Jira.author_displayName c = None) kept ->
        Comments.returned r = inl Py.AttributeError).
Proof.
  intros jira issue_key filters max_results output_format r fetched kept.
  subst r. unfold Comments.get_ticket_comments. fold fetched.
  pose proof (filter_comments_filter fetched filters) as Hf.
  destruct (Comments.filter_comments fetched filters) as [filtered warnings].
  cbn [fst] in Hf. rewrite cap_first, Hf. fold kept.
  cbn [Comments.log Comments.returned].
  split; [reflexivity|]. split.
  - intros Hall. destruct (output_format =? "table").
    + rewrite (mapM_total _ FilterSpec.shown_row _ _ comment_row_shown Hall).
      eexists. reflexivity.
    + rewrite (mapM_total _ FilterSpec.shown_dict _ _ comment_dict_shown Hall).
      eexists. reflexivity.
  - intros Hex. destruct (output_format =? "table").
    + now rewrite (mapM_raises _ _ _ _ comment_row_cases comment_row_anonymous Hex).
    + now rewrite (mapM_raises _ _ _ _ comment_dict_cases comment_dict_anonymous Hex).
Qed.

Lemma C10_cap_after_filter_witness :
  exists out,
    Comments.returned
      (Comments.get_ticket_comments
         (Sample.serving [] [Sample.february; Sample.january; Sample.january; Sample.anonymous])
         "PROJ-7" ["text:deployed"] 1 "json")
    = inr (inr [FilterSpec.shown_dict Sample.january], out).
Proof.
  destruct (C10_cap_after_filter
              (Sample.serving [] [Sample.february; Sample.january; Sample.january; Sample.anonymous])
              "PROJ-7" ["text:deployed"] 1 "json") as (_ & H & _).
  apply H. repeat constructor; discriminate.
Defined.

(** ** [create_jira_ticket] *)

(** C9, as amended.  With a description file that does not exist the
    function raises [FileNotFoundError] and issues no remote call.  With
    a path that exists and is a file that is opened and read, it issues
    the create call, carrying the text of the file, and then, exactly
    when an epic key is given (and not empty), the call that links the
    new issue to the epic.  With a path that exists but cannot be opened
    or read, it raises the error of [open] or [read] and issues no remote
    call either. *)
Theorem C9_description_checked_first :
  forall (fs : Create.filesystem) (jira : Jira.JIRA)
         (project_key summary path priority : string)
         (epic_key : option string) (issue_type : string),
    let r := Create.create_jira_ticket fs jira project_key summary path priority
               epic_key issue_type in
    (fs path = Create.Missing ->
     Create.returned r = inl Py.FileNotFoundError /\ Create.log r = [])
    /\ (forall e, fs path = Create.Unreadable e ->
        Create.returned r = inl e /\ Create.log r = [])
    /\ (forall description, fs path = Create.Text description ->
        let f := {| Jira.f_project := project_key; Jira.f_summary := summary;
                    Jira.f_description := description; Jira.f_issuetype := issue_type;
                    Jira.f_priority := priority |} in
        let issue := Jira.create_issue jira f in
        Create.returned r = inr issue
        /\ Create.log r
           = Jira.CallCreateIssue f
               :: match epic_key with
                  | Some epic =>
                      if Create.truthy epic_key
                      then [Jira.CallAddIssuesToEpic epic [Jira.key issue]]
                      else []
                  | None => []
                  end).
Proof.
  intros fs jira project_key summary path priority epic_key issue_type r.
  subst r. unfold Create.create_jira_ticket. split; [|split].
  - intros H. rewrite H. split; reflexivity.
  - intros e H. rewrite H. split; reflexivity.
  - intros description H. rewrite H.
    destruct epic_key as [[|c e]|]; split; reflexivity.
Qed.

Lemma C9_description_checked_first_witness :
  Create.log (Create.create_jira_ticket Sample.files (Sample.serving [] []) "PROJ"
                "Update core" "missing.md" "Medium" (Some "PROJ-1") "Task") = []
  /\ Create.log (Create.create_jira_ticket Sample.files (Sample.serving [] []) "PROJ"
                   "Update core" "description.md" "Medium" (Some "PROJ-1") "Task")
     = [Jira.CallCreateIssue
          {| Jira.f_project := "PROJ"; Jira.f_summary := "Update core";
             Jira.f_description := "Port the module."; Jira.f_issuetype := "Task";
             Jira.f_priority := "Medium" |};
        Jira.CallAddIssuesToEpic "PROJ-1" ["PROJ-1"]].
Proof.
  split.
  - destruct (C9_description_checked_first Sample.files (Sample.serving [] []) "PROJ"
                "Update core" "missing.md" "Medium" (Some "PROJ-1") "Task") as [H _].
    apply H. reflexivity.
  - destruct (C9_description_checked_first Sample.files (Sample.serving [] []) "PROJ"
                "Update core" "description.md" "Medium" (Some "PROJ-1") "Task")
      as (_ & _ & H).
    apply (H "Port the module."). reflexivity.
Defined.

(** C9, as stated, fails.  The path below exists, as a directory: [open]
    raises [IsADirectoryError], and no create call is issued. *)
Lemma C9_counterexample :
  Sample.files "docs" <> Create.Missing
  /\ Create.returned
       (Create.create_jira_ticket Sample.files (Sample.serving [] []) "PROJ"
          "Update core" "docs" "Medium" (Some "PROJ-1") "Task")
     = inl Py.IsADirectoryError
  /\ Create.log
       (Create.create_jira_ticket Sample.files (Sample.serving [] []) "PROJ"
          "Update core" "docs" "Medium" (Some "PROJ-1") "Task")
     = [].
Proof. split; [discriminate | split; reflexivity]. Qed.

(** ** Projection *)
Section ProjectionFacts.
Import Py PyVal Jira Fields Tickets.

Lemma mem_In (x : string) (l : list string) : mem x l = true <-> In x l.
Proof.
  unfold mem. rewrite existsb_exists. split.
  - intros (y & Hy & E). apply String.eqb_eq in E. now subst.
  - intros H. exists x. split; [exact H | apply String.eqb_refl].
Qed.

Lemma with_key_has_key (fields : list string) : In "key" (with_key fields).
Proof.
  unfold with_key. destruct (mem "key" fields) eqn:E.
  - now apply mem_In.
  - apply in_or_app. right. now left.
Qed.

Lemma assoc_dict_set_same (d : dict) (k : string) (v : value) :
  assoc k (dict_set d k v) = Some v.
Proof.
  induction d as [|[k' v'] d IH]; cbn [dict_set assoc].
  - now rewrite String.eqb_refl.
  - destruct (k' =? k) eqn:E; cbn [assoc]; rewrite E; [reflexivity | exact IH].
Qed.

Lemma assoc_dict_set_other (d : dict) (k g : string) (v : value) :
  g <> k -> assoc g (dict_set d k v) = assoc g d.
Proof.
  intros N. induction d as [|[k' v'] d IH]; cbn [dict_set assoc].
  - destruct (String.eqb_spec k g); [now subst | reflexivity].
  - destruct (String.eqb_spec k' k) as [->|Nk]; cbn [assoc].
    + destruct (String.eqb_spec k g); [now subst | reflexivity].
    + now rewrite IH.
Qed.

(** One step of the loop of lines 219-226 sets the entry of the field to
    the cell of the field. *)
Lemma ticket_step (issue : Issue) (ticket : dict) (field : string) :
  (if field =? "key" then dict_set ticket "key" (VStr (key issue))
   else dict_set ticket field (field_value issue field))
  = dict_set ticket field (cell issue field).
Proof.
  unfold cell. destruct (String.eqb_spec field "key") as [->|N]; reflexivity.
Qed.

Lemma fold_ticket_assoc (issue : Issue) (fields : list string) (d : dict) (f : string) :
  (forall g v, assoc g d = Some v -> v = cell issue g) ->
  In f fields \/ assoc f d <> None ->
  assoc f (fold_left
             (fun ticket field =>
                if field =? "key" then dict_set ticket "key" (VStr (key issue))
                else dict_set ticket field (field_value issue field))
             fields d)
  = Some (cell issue f).
Proof.
  revert d. induction fields as [|a fields IH]; intros d Hinv Hf.
  - cbn [fold_left]. destruct Hf as [[]|Hf].
    destruct (assoc f d) as [v|] eqn:E; [|now elim Hf].
    now rewrite (Hinv f v E).
  - cbn [fold_left]. rewrite ticket_step. apply IH.
    + intros g v Hg. destruct (String.eqb_spec g a) as [->|N].
      * rewrite assoc_dict_set_same in Hg. now injection Hg as <-.
      * rewrite (assoc_dict_set_other _ _ _ _ N) in Hg. now apply Hinv.
    + destruct (String.eqb_spec f a) as [->|N].
      * right. rewrite assoc_dict_set_same. discriminate.
      * rewrite (assoc_dict_set_other _ _ _ _ N).
        destruct Hf as [[E|Hf]|Hf]; [now elim N | now left | now right].
Qed.

Lemma ticket_dict_assoc (issue : Issue) (fields : list string) (f : string) :
  In f fields -> assoc f (ticket_dict fields issue) = Some (cell issue f).
Proof.
  intros H. unfold ticket_dict. apply fold_ticket_assoc; [discriminate | now left].
Qed.

(** The row written to the CSV file is the row of the table. *)
Lemma csv_row_ticket_list (issue : Issue) (fields : list string) :
  csv_row fields (ticket_dict fields issue) = ticket_list fields issue.
Proof.
  unfold csv_row, ticket_list. apply map_ext_in. intros f Hf.
  unfold dict_get. now rewrite (ticket_dict_assoc _ _ _ Hf).
Qed.



Lemma list_tickets_run fuel jira project_key fields extra_fields output_format
      filters max_results items_per_batch r :
  list_tickets fuel jira project_key fields extra_fields output_format filters
    max_results items_per_batch = Some r ->
  fields_used r = with_key fields
  /\ out r = render project_key (with_key fields) (total_issues r) output_format.
Proof.
  unfold list_tickets.
  destruct (loop _ _ _ _ _ _ _ _ _) as [issues l|l]; [|discriminate].
  intros [= <-]. split; reflexivity.
Qed.

End ProjectionFacts.



(** C7 fails for [run_jql].  The caller's fields become the headers, but
    every row is the fixed list summary, status, assignee, key: asked for
    key then summary, the table and the CSV file show the summary under
    key and the status under summary, in rows of four cells. *)
Theorem C7_run_jql_rows_ignore_fields :
  let jira := Sample.serving [Sample.ticket "PROJ-1" "Fix login"] [] in
  let row := [PyVal.VStr "Fix login"; PyVal.VStr "Open";
              PyVal.VStr "Unassigned"; PyVal.VStr "PROJ-1"] in
  option_map Jql.returned (Jql.run_jql jira "project = PROJ" ["key"; "summary"] 0 50 "table")
  = Some (inr ([Sample.ticket "PROJ-1" "Fix login"], [row],
               Some (Jira.Table ["key"; "summary"] [row])))
  /\ option_map Jql.returned (Jql.run_jql jira "project = PROJ" ["key"; "summary"] 0 50 "csv")
     = Some (inr ([Sample.ticket "PROJ-1" "Fix login"], [row],
                  Some (Jira.CsvFile "jql_query_tickets.csv" ["key"; "summary"] [row]))).
Proof. split; reflexivity. Qed.

(** ** The fetch loop of [run_jql] *)
Section ListLengths.
Import PyVal.

Lemma len_app {A} (a b : list A) : len (a ++ b) = len a + len b.
Proof. unfold len. rewrite length_app. lia. Qed.

Lemma len_cons {A} (x : A) (l : list A) : len (x :: l) = 1 + len l.
Proof. unfold len. cbn [List.length]. lia. Qed.

Lemma len_nonneg {A} (l : list A) : 0 <= len l.
Proof. unfold len. lia. Qed.

Lemma len_firstn {A} (n : Z) (l : list A) :
  0 <= n -> len (firstn (Z.to_nat n) l) = Z.min n (len l).
Proof. intros H. unfold len. rewrite length_firstn. lia. Qed.

Lemma len_positive_cons {A} (l : list A) :
  1 <= len l -> exists x r, l = x :: r.
Proof. destruct l as [|x r]; [cbn; lia | eauto]. Qed.

End ListLengths.

Section BatchCount.

(** The number printed by line 382. *)
Lemma num_batches_value (total items_per_batch : Z) :
  items_per_batch <> 0 ->
  Jql.num_batches total items_per_batch
  = inr (total / items_per_batch
         + (if (total mod items_per_batch =? 0)%Z then 0 else 1)).
Proof.
  intros H. unfold Jql.num_batches.
  destruct (Z.eqb_spec items_per_batch 0); [contradiction | reflexivity].
Qed.

(** It is the ceiling of the quotient. *)
Lemma num_batches_ceiling (t b : Z) :
  1 <= b ->
  let nb := t / b + (if (t mod b =? 0)%Z then 0 else 1) in
  t <= nb * b < t + b.
Proof.
  intros Hb nb. subst nb.
  pose proof (Z.div_mod t b ltac:(lia)) as Hd.
  pose proof (Z.mod_pos_bound t b ltac:(lia)) as Hm.
  destruct (Z.eqb_spec (t mod b) 0); nia.
Qed.

Lemma batches_step (b t : Z) :
  1 <= b -> 0 < t ->
  1 + ((t - Z.min b t) / b + (if ((t - Z.min b t) mod b =? 0)%Z then 0 else 1))
  <= t / b + (if (t mod b =? 0)%Z then 0 else 1).
Proof.
  intros Hb Ht. destruct (Z.le_gt_cases t b) as [Hle|Hgt].
  - rewrite Z.min_r by lia. replace (t - t) with 0 by lia.
    rewrite Z.div_0_l, Z.mod_0_l by lia. cbn [Z.eqb].
    destruct (Z.eq_dec t b) as [->|N].
    + rewrite Z.div_same, Z.mod_same by lia. cbn. lia.
    + rewrite Z.div_small, Z.mod_small by lia.
      destruct (Z.eqb_spec t 0); lia.
  - rewrite Z.min_l by lia.
    replace (t - b) with (t + (-1) * b) by lia.
    rewrite Z.div_add, Z.mod_add by lia. lia.
Qed.

Lemma plan_length (b total : Z) (fuel : nat) :
  1 <= b ->
  forall start, start <= total ->
    Z.of_nat (List.length (FetchSpec.plan b total fuel start))
    <= (total - start) / b + (if ((total - start) mod b =? 0)%Z then 0 else 1).
Proof.
  intros Hb. induction fuel as [|fuel IH]; intros start Hs; cbn [FetchSpec.plan].
  - assert (0 <= (total - start) / b) by (apply Z.div_pos; lia).
    destruct (start <? total)%Z; cbn [List.length];
      destruct ((total - start) mod b =? 0)%Z; lia.
  - destruct (Z.ltb_spec start total) as [Hlt|Hge].
    + cbn [List.length]. rewrite Nat2Z.inj_succ.
      specialize (IH (start + Z.min b (total - start)) ltac:(lia)).
      pose proof (batches_step b (total - start) Hb ltac:(lia)) as Hstep.
      replace (total - (start + Z.min b (total - start)))
        with (total - start - Z.min b (total - start)) in IH by lia.
      lia.
    + replace (total - start) with 0 by lia. cbn. lia.
Qed.

End BatchCount.

Section JqlLoopFacts.
Import Py PyVal Jira Jql.

Variable jira : JIRA.
Variable jql_query : string.
Variable fields : list string.
Variables max_results items_per_batch total : Z.

Lemma fetch_log_with_call (c : call) (f : fetch) :
  fetch_log (with_call c f) = c :: fetch_log f.
Proof. now destruct f. Qed.

Lemma with_call_done (c : call) (f : fetch) (issues : list Issue) (l : list call) :
  with_call c f = Done issues l ->
  exists l', f = Done issues l' /\ l = c :: l'.
Proof. destruct f as [i l'|l']; cbn; [intros [= -> <-]; eauto | discriminate]. Qed.

(** The loop ends within [total - start_at] iterations: every iteration
    that does not end it moves the offset by one at least. *)
Lemma loop_done (fuel : nat) :
  forall n start acc,
    (Z.to_nat (total - start) <= fuel)%nat ->
    exists issues l,
      loop jira jql_query fields max_results items_per_batch total fuel n start acc
      = Done issues l.
Proof.
  induction fuel as [|fuel IH]; intros n start acc Hf; cbn [loop].
  - destruct (Z.ltb_spec start total) as [Hlt|Hge]; [lia | eauto].
  - destruct (Z.ltb_spec start total) as [Hlt|Hge]; [|eauto].
    destruct (items _) as [|i r] eqn:E; [eauto|].
    destruct (_ && _); [eauto|].
    destruct (IH (S n) (start + len (i :: r)) (acc ++ i :: r)%list) as (issues & l & ->).
    { rewrite len_cons. pose proof (len_nonneg r). lia. }
    cbn [with_call]. eauto.
Qed.

(** With a positive cap the result never has more records than the cap,
    whatever the service answers. *)
Lemma loop_capped (fuel : nat) :
  forall n start acc issues l,
    0 < max_results -> len acc <= max_results ->
    loop jira jql_query fields max_results items_per_batch total fuel n start acc
    = Done issues l ->
    len issues <= max_results.
Proof.
  induction fuel as [|fuel IH]; intros n start acc issues l Hm Hacc; cbn [loop].
  - destruct (start <? total)%Z; [discriminate | intros [= <- _]; exact Hacc].
  - destruct (start <? total)%Z; [|intros [= <- _]; exact Hacc].
    destruct (items _) as [|i r] eqn:E; [intros [= <- _]; exact Hacc|].
    destruct (Z.gtb_spec max_results 0); [|lia]. cbn [andb].
    destruct (Z.geb_spec (len (acc ++ i :: r)) max_results) as [Hge|Hlt].
    + intros [= <- _]. rewrite len_firstn by lia. lia.
    + intros Hrun. apply with_call_done in Hrun as (l' & Hrun & _).
      eapply IH; [exact Hm | | exact Hrun]. lia.
Qed.

(** A request answered with nothing is the last one, and the result is
    what was gathered before it, fewer records than the total. *)
Lemma loop_empty_last (fuel : nat) :
  forall n start acc k r,
    len acc = start ->
    nth_error (fetch_log (loop jira jql_query fields max_results items_per_batch
                               total fuel n start acc)) k = Some (CallSearch r) ->
    items (search_issues jira (n + k) r) = [] ->
    exists issues l,
      loop jira jql_query fields max_results items_per_batch total fuel n start acc
      = Done issues l
      /\ List.length l = S k /\ len issues < total.
Proof.
  induction fuel as [|fuel IH]; intros n start acc k r Hacc; cbn [loop].
  - destruct (start <? total)%Z; cbn [fetch_log]; destruct k; discriminate.
  - destruct (Z.ltb_spec start total) as [Hlt|Hge];
      [|cbn [fetch_log]; destruct k; discriminate].
    destruct (items _) as [|i rest] eqn:E.
    + cbn [fetch_log]. destruct k as [|k]; [|destruct k; discriminate].
      intros _ _. exists acc, [CallSearch
        {| jql := jql_query; req_fields := fields; startAt := start;
           maxResults := Z.min items_per_batch (total - start) |}].
      repeat split. lia.
    + destruct (_ && _).
      * cbn [fetch_log]. destruct k as [|k]; [|destruct k; discriminate].
        cbn [nth_error]. intros [= <-]. rewrite Nat.add_0_r, E. discriminate.
      * rewrite fetch_log_with_call. destruct k as [|k]; cbn [nth_error].
        { intros [= <-]. rewrite Nat.add_0_r, E. discriminate. }
        intros Hk He. rewrite <- Nat.add_succ_comm in He.
        destruct (IH (S n) (start + len (i :: rest)) (acc ++ i :: rest)%list k r)
          as (issues & l & -> & Hl & Hi); [rewrite len_app; lia | exact Hk | exact He |].
        cbn [with_call]. do 2 eexists. split; [reflexivity|].
        cbn [List.length]. split; [now rewrite Hl | exact Hi].
Qed.

(** When every batch within the total comes back full the requests are
    those of the plan and the records gathered are as many as the total. *)
Lemma loop_plan (fuel : nat) :
  FetchSpec.fills_within jira total -> 1 <= items_per_batch ->
  (0 < max_results -> total <= max_results) ->
  forall n start acc issues l,
    len acc = start -> start <= total ->
    loop jira jql_query fields max_results items_per_batch total fuel n start acc
    = Done issues l ->
    l = map (FetchSpec.batch jql_query fields)
          (FetchSpec.plan items_per_batch total fuel start)
    /\ len issues = total.
Proof.
  intros Hfull Hb Hcap.
  induction fuel as [|fuel IH]; intros n start acc issues l Hacc Hs;
    cbn [loop FetchSpec.plan].
  - destruct (Z.ltb_spec start total); [discriminate|].
    intros [= <- <-]. split; [reflexivity | lia].
  - destruct (Z.ltb_spec start total) as [Hlt|Hge];
      [|intros [= <- <-]; split; [reflexivity | lia]].
    set (size := Z.min items_per_batch (total - start)).
    set (req := {| jql := jql_query; req_fields := fields;
                   startAt := start; maxResults := size |}).
    assert (Hsize : 1 <= size <= total - start) by (unfold size; lia).
    pose proof (len_nonneg acc) as Hnn.
    pose proof (Hfull n req ltac:(cbn; lia) ltac:(cbn; lia) ltac:(cbn; lia)) as Hlen.
    cbn [maxResults req] in Hlen.
    destruct (items (search_issues jira n req)) as [|i rest] eqn:E.
    { unfold len in Hlen. cbn [List.length] in Hlen. lia. }
    assert (Hacc' : len (acc ++ i :: rest) = start + size) by (rewrite len_app; lia).
    assert (Hs' : start + size <= total) by lia.
    rewrite Hlen.
    destruct (Z.gtb_spec max_results 0) as [Hm|Hm]; cbn [andb].
    + destruct (Z.geb_spec (len (acc ++ i :: rest)) max_results) as [Hge|Hlt'].
      * intros [= <- <-]. cbn [map]. split.
        -- f_equal. destruct fuel; cbn [FetchSpec.plan];
             destruct (Z.ltb_spec (start + size) total); try reflexivity;
             specialize (Hcap Hm); lia.
        -- specialize (Hcap Hm). rewrite len_firstn by lia. lia.
      * intros Hrun. apply with_call_done in Hrun as (l' & Hrun & ->).
        destruct (IH _ _ _ _ _ Hacc' Hs' Hrun) as [-> Hi]. split; [reflexivity | exact Hi].
    + intros Hrun. apply with_call_done in Hrun as (l' & Hrun & ->).
      destruct (IH _ _ _ _ _ Hacc' Hs' Hrun) as [-> Hi]. split; [reflexivity | exact Hi].
Qed.

End JqlLoopFacts.

Section RunJqlFacts.
Import Py PyVal Jira Jql.

(** [run_jql] always comes to an end: it raises on a batch size of 0,
    and otherwise returns what the loop gathered. *)
Lemma run_jql_shape jira jql_query fields max_results items_per_batch output_format :
  items_per_batch <> 0 ->
  let tc := total_count max_results (total (search_issues jira 0 (count_req jql_query))) in
  exists issues l,
    loop jira jql_query fields max_results items_per_batch tc (Z.to_nat tc) 1 0 []
    = Done issues l
    /\ run_jql jira jql_query fields max_results items_per_batch output_format
       = Some {| log := CallSearch (count_req jql_query) :: l;
                 returned := inr (issues, map ticket_row issues,
                                  render fields (map ticket_row issues) output_format) |}.
Proof.
  intros Hb tc. unfold run_jql. fold tc.
  rewrite (num_batches_value _ _ Hb).
  destruct (loop_done jira jql_query fields max_results items_per_batch tc
              (Z.to_nat tc) 1 0 []) as (issues & l & E).
  { rewrite Z.sub_0_r. apply Nat.le_refl. }
  exists issues, l. rewrite E. split; reflexivity.
Qed.

Lemma run_jql_returns jira jql_query fields max_results items_per_batch output_format :
  exists r,
    run_jql jira jql_query fields max_results items_per_batch output_format = Some r.
Proof.
  destruct (Z.eq_dec items_per_batch 0) as [->|Hb].
  - unfold run_jql, num_batches. cbn [Z.eqb raise]. eauto.
  - destruct (run_jql_shape jira jql_query fields max_results items_per_batch
                output_format Hb) as (issues & l & _ & E).
    eauto.
Qed.

Lemma total_count_capped (max_results count : Z) :
  0 < max_results -> total_count max_results count <= max_results.
Proof.
  intros H. unfold total_count.
  destruct (Z.eqb_spec max_results 0); lia.
Qed.

End RunJqlFacts.

(** ** The fetch loop of [list_tickets] *)
Section TicketsLoopFacts.
Import Py PyVal Jira Tickets.

Variable jira : JIRA.
Variable jql_query : string.
Variable all_fields : list string.
Variables max_results items_per_batch : Z.

(** With a positive cap the loop ends within [max_results] iterations. *)
Lemma tickets_loop_done (fuel : nat) :
  forall n start acc,
    0 < max_results ->
    (Z.to_nat (max_results - len acc) <= fuel)%nat ->
    len acc < max_results ->
    exists issues l,
      loop jira jql_query all_fields max_results items_per_batch fuel n start acc
      = Done issues l.
Proof.
  induction fuel as [|fuel IH]; intros n start acc Hm Hf Hacc; cbn [loop]; [lia|].
  destruct (items _) as [|i r] eqn:E; [eauto|].
  destruct (Z.gtb_spec max_results 0) as [_|]; [|lia].
  destruct (_ <? _)%Z; cbn [orb andb]; [eauto|].
  destruct (Z.geb_spec (len (acc ++ i :: r)) max_results) as [Hge|Hlt]; [eauto|].
  destruct (IH (S n) (start + len (i :: r)) (acc ++ i :: r)%list Hm) as (issues & l & ->).
  - rewrite len_app, len_cons in *. pose proof (len_nonneg r). lia.
  - exact Hlt.
  - cbn [with_call]. eauto.
Qed.

(** When the service never answers with more than was asked for, the
    result stays within a positive cap. *)
Lemma tickets_loop_capped (fuel : nat) :
  FetchSpec.never_more jira ->
  forall n start acc issues l,
    0 < max_results -> len acc < max_results ->
    loop jira jql_query all_fields max_results items_per_batch fuel n start acc
    = Done issues l ->
    len issues <= max_results.
Proof.
  intros Hnm. induction fuel as [|fuel IH]; intros n start acc issues l Hm Hacc;
    cbn [loop]; [discriminate|].
  destruct (Z.gtb_spec max_results 0) as [_|]; [|lia].
  set (size := Z.min items_per_batch (max_results - len acc)).
  set (req := {| jql := jql_query; req_fields := all_fields;
                 startAt := start; maxResults := size |}).
  pose proof (Hnm n req) as Hlen. cbn [maxResults req] in Hlen.
  assert (Hsize : size <= max_results - len acc) by (unfold size; lia).
  destruct (items (search_issues jira n req)) as [|i r] eqn:E.
  { intros [= <- _]. lia. }
  assert (Hacc' : len (acc ++ i :: r) <= max_results) by (rewrite len_app; lia).
  destruct (_ <? _)%Z; cbn [orb andb]; [intros [= <- _]; exact Hacc'|].
  destruct (Z.geb_spec (len (acc ++ i :: r)) max_results) as [Hge|Hlt];
    [intros [= <- _]; exact Hacc'|].
  intros Hrun. apply with_call_done in Hrun as (l' & Hrun & _).
  eapply IH; [exact Hm | exact Hlt | exact Hrun].
Qed.

(** A request answered with nothing is the last one; the result is what
    was gathered before it, fewer records than a positive cap. *)
Lemma tickets_loop_empty_last (fuel : nat) :
  forall n start acc k r,
    (0 < max_results -> len acc < max_results) ->
    nth_error (fetch_log (loop jira jql_query all_fields max_results items_per_batch
                               fuel n start acc)) k = Some (CallSearch r) ->
    items (search_issues jira (n + k) r) = [] ->
    exists issues l,
      loop jira jql_query all_fields max_results items_per_batch fuel n start acc
      = Done issues l
      /\ List.length l = S k
      /\ (0 < max_results -> len issues < max_results).
Proof.
  induction fuel as [|fuel IH]; intros n start acc k r Hacc; cbn [loop].
  - cbn [fetch_log]. destruct k; discriminate.
  - destruct (items _) as [|i rest] eqn:E.
    + cbn [fetch_log]. destruct k as [|k]; [|destruct k; discriminate].
      intros _ _. do 2 eexists. repeat split. exact Hacc.
    + destruct (_ <? _)%Z; cbn [orb].
      { cbn [fetch_log]. destruct k as [|k]; [|destruct k; discriminate].
        cbn [nth_error]. intros [= <-]. rewrite Nat.add_0_r, E. discriminate. }
      destruct (Z.gtb_spec max_results 0) as [Hm|Hm]; cbn [andb].
      * destruct (Z.geb_spec (len (acc ++ i :: rest)) max_results) as [Hge|Hlt].
        { cbn [fetch_log]. destruct k as [|k]; [|destruct k; discriminate].
          cbn [nth_error]. intros [= <-]. rewrite Nat.add_0_r, E. discriminate. }
        rewrite fetch_log_with_call. destruct k as [|k]; cbn [nth_error].
        { intros [= <-]. rewrite Nat.add_0_r, E. discriminate. }
        intros Hk He. rewrite <- Nat.add_succ_comm in He.
        destruct (IH (S n) (start + len (i :: rest)) (acc ++ i :: rest)%list k r)
          as (issues & l & -> & Hl & Hi); [intros _; exact Hlt | exact Hk | exact He |].
        cbn [with_call]. do 2 eexists. split; [reflexivity|].
        cbn [List.length]. split; [now rewrite Hl | exact Hi].
      * rewrite fetch_log_with_call. destruct k as [|k]; cbn [nth_error].
        { intros [= <-]. rewrite Nat.add_0_r, E. discriminate. }
        intros Hk He. rewrite <- Nat.add_succ_comm in He.
        destruct (IH (S n) (start + len (i :: rest)) (acc ++ i :: rest)%list k r)
          as (issues & l & -> & Hl & Hi); [intros; lia | exact Hk | exact He |].
        cbn [with_call]. do 2 eexists. split; [reflexivity|].
        cbn [List.length]. split; [now rewrite Hl | exact Hi].
Qed.

End TicketsLoopFacts.

(** ** Pagination *)
Section PaginationFacts.
Import Py PyVal Jira Jql.

Lemma fills_within_le (jira : JIRA) (a b : Z) :
  b <= a -> FetchSpec.fills_within jira a -> FetchSpec.fills_within jira b.
Proof. intros Hle H n r H0 H1 Hb. apply H; lia. Qed.

Lemma full_batches_fills (jira : JIRA) (t : Z) :
  FetchSpec.full_batches jira -> FetchSpec.fills_within jira t.
Proof. intros H n r H0 H1 _. apply H. lia. Qed.

(** A service that holds [db] fills every request within its length. *)
Lemma serving_fills_within (db : list Issue) (cs : list Comment) :
  FetchSpec.fills_within (Sample.serving db cs) (len db).
Proof.
  intros n r H0 H1 Hb. cbn [Sample.serving search_issues items].
  unfold len in *. rewrite length_firstn, length_skipn. lia.
Qed.

(** [run_jql] against a service that fills every batch within the total
    it reports. *)
Lemma run_jql_full_batches jira jql_query fields max_results items_per_batch output_format :
  FetchSpec.fills_within jira (total (search_issues jira 0 (count_req jql_query))) ->
  1 <= items_per_batch ->
  0 <= max_results ->
  0 <= total (search_issues jira 0 (count_req jql_query)) ->
  let tc := total_count max_results (total (search_issues jira 0 (count_req jql_query))) in
  exists issues,
    run_jql jira jql_query fields max_results items_per_batch output_format
    = Some {| log := CallSearch (count_req jql_query)
                       :: map (FetchSpec.batch jql_query fields)
                            (FetchSpec.plan items_per_batch tc (Z.to_nat tc) 0);
              returned := inr (issues, map ticket_row issues,
                               render fields (map ticket_row issues) output_format) |}
    /\ len issues = tc.
Proof.
  intros Hfull Hb Hmax Hcount tc.
  destruct (run_jql_shape jira jql_query fields max_results items_per_batch
              output_format ltac:(lia)) as (issues & l & Hloop & Hrun).
  fold tc in Hloop, Hrun.
  assert (Htc : 0 <= tc <= total (search_issues jira 0 (count_req jql_query))).
  { unfold tc, total_count. destruct (max_results =? 0)%Z; lia. }
  destruct (loop_plan jira jql_query fields max_results items_per_batch tc
              (Z.to_nat tc) (fills_within_le _ _ _ (proj2 Htc) Hfull) Hb
              (total_count_capped _ _) 1 0 [] issues l
              eq_refl (proj1 Htc) Hloop) as [-> Hlen].
  exists issues. split; [exact Hrun | exact Hlen].
Qed.

Lemma generous_full_batches (n : Z) : FetchSpec.full_batches (Sample.generous n).
Proof.
  intros i r Hr. cbn [Sample.generous search_issues items].
  unfold len. rewrite repeat_length. lia.
Qed.

Lemma serving_never_more (db : list Issue) (cs : list Comment) :
  FetchSpec.never_more (Sample.serving db cs).
Proof.
  intros i r. cbn [Sample.serving search_issues items].
  unfold len. rewrite length_firstn. lia.
Qed.

End PaginationFacts.

(** C2, as amended.  When every batch request that lies within the total
    the service reports returns as many records as requested (and the
    batch size is at least 1), the batch requests that [run_jql] issues
    after the count-only request are never more than the batch count it
    announces, which is the ceiling of total over batch size, and the
    records gathered are as many as the total it works towards.  With no
    maximum, a total of 125 and batches of 50 these are three requests,
    of sizes 50, 50 and 25 at offsets 0, 50 and 100, and 125 records. *)
Theorem C2_full_batches_follow_plan :
  forall jira jql_query fields max_results items_per_batch output_format,
    FetchSpec.fills_within jira
      (Jira.total (Jira.search_issues jira 0 (Jql.count_req jql_query))) ->
    1 <= items_per_batch ->
    0 <= max_results ->
    0 <= Jira.total (Jira.search_issues jira 0 (Jql.count_req jql_query)) ->
    exists r issues rows out nb,
      Jql.run_jql jira jql_query fields max_results items_per_batch output_format = Some r
      /\ Jql.returned r = inr (issues, rows, out)
      /\ Jql.num_batches
           (Jql.total_count max_results
              (Jira.total (Jira.search_issues jira 0 (Jql.count_req jql_query))))
           items_per_batch = inr nb
      /\ Jql.total_count max_results
           (Jira.total (Jira.search_issues jira 0 (Jql.count_req jql_query)))
         <= nb * items_per_batch
         < Jql.total_count max_results
             (Jira.total (Jira.search_issues jira 0 (Jql.count_req jql_query)))
           + items_per_batch
      /\ Z.of_nat (List.length (Jql.log r)) <= nb + 1
      /\ PyVal.len issues
         = Jql.total_count max_results
             (Jira.total (Jira.search_issues jira 0 (Jql.count_req jql_query)))
      /\ (max_results = 0 -> items_per_batch = 50 ->
          Jira.total (Jira.search_issues jira 0 (Jql.count_req jql_query)) = 125 ->
          Jql.log r
          = [Jira.CallSearch (Jql.count_req jql_query);
             FetchSpec.batch jql_query fields (0, 50);
             FetchSpec.batch jql_query fields (50, 50);
             FetchSpec.batch jql_query fields (100, 25)]
          /\ PyVal.len issues = 125).
Proof.
  intros jira jql_query fields max_results items_per_batch output_format
         Hfull Hb Hmax Hcount.
  destruct (run_jql_full_batches jira jql_query fields max_results items_per_batch
              output_format Hfull Hb Hmax Hcount) as (issues & Hrun & Hlen).
  set (tc := Jql.total_count max_results
               (Jira.total (Jira.search_issues jira 0 (Jql.count_req jql_query)))) in *.
  assert (Htc : 0 <= tc).
  { unfold tc, Jql.total_count. destruct (max_results =? 0)%Z; lia. }
  do 5 eexists. split; [exact Hrun|]. cbn [Jql.returned Jql.log].
  split; [reflexivity|]. split; [apply num_batches_value; lia|].
  split; [exact (num_batches_ceiling tc items_per_batch Hb)|].
  split; [|split; [exact Hlen|]].
  - cbn [List.length]. rewrite length_map, Nat2Z.inj_succ.
    pose proof (plan_length items_per_batch tc (Z.to_nat tc) Hb 0 Htc) as H.
    rewrite Z.sub_0_r in H. lia.
  - intros Hm Hi Ht. subst tc. rewrite Ht, Hm, Hi in *. split; [reflexivity | exact Hlen].
Qed.

Lemma C2_full_batches_follow_plan_witness :
  exists r issues rows out,
    Jql.run_jql (Sample.serving (repeat (Sample.ticket "PROJ-1" "Fix login") 125) [])
      "project = PROJ" ["summary"; "key"] 0 50 "table" = Some r
    /\ Jql.returned r = inr (issues, rows, out)
    /\ Jql.log r
       = [Jira.CallSearch (Jql.count_req "project = PROJ");
          FetchSpec.batch "project = PROJ" ["summary"; "key"] (0, 50);
          FetchSpec.batch "project = PROJ" ["summary"; "key"] (50, 50);
          FetchSpec.batch "project = PROJ" ["summary"; "key"] (100, 25)]
    /\ PyVal.len issues = 125.
Proof.
  destruct (C2_full_batches_follow_plan
              (Sample.serving (repeat (Sample.ticket "PROJ-1" "Fix login") 125) [])
              "project = PROJ" ["summary"; "key"] 0 50 "table"
              (serving_fills_within _ _))
    as (r & issues & rows & out & nb & Hrun & Hret & _ & _ & _ & _ & H);
    [lia | lia | apply len_nonneg |].
  exists r, issues, rows, out.
  destruct (H eq_refl eq_refl eq_refl) as [Hlog Hlen].
  repeat split; assumption.
Defined.

(** C2, as stated, fails.  A service that returns one record per request
    makes [run_jql] issue four batch requests for a total of 4 in batches
    of 2, twice the batch count announced. *)
Lemma C2_counterexample :
  Jql.num_batches 4 2 = inr 2
  /\ option_map (fun r => List.length (Jql.log r))
       (Jql.run_jql (Sample.stubborn [Sample.ticket "PROJ-1" "Fix login"] 4)
          "project = PROJ" ["summary"; "key"] 0 2 "table")
     = Some 5%nat.
Proof. split; reflexivity. Qed.

(** C3: [list_tickets] breaks it.  Given a maximum of 2, it asks the
    service for 2 records; a service that answers with three makes it
    keep and render all three, where [run_jql] cuts the list at the
    maximum. *)
Theorem C3_list_tickets_overshoots :
  option_map
    (fun r => (Shape.sizes (Tickets.log r),
               List.length (Tickets.total_issues r),
               match Tickets.out r with
               | Some (Jira.Table _ rows) => List.length rows
               | _ => O
               end))
    (Tickets.list_tickets 5
       (Sample.stubborn [Sample.ticket "PROJ-1" "A"; Sample.ticket "PROJ-2" "B";
                         Sample.ticket "PROJ-3" "C"] 3)
       "PROJ" ["summary"] [] "table" [] 2 50)
  = Some ([2], 3%nat, 3%nat)
  /\ option_map
       (fun r => match Jql.returned r with
                 | inr (issues, rows, _) => (List.length issues, List.length rows)
                 | inl _ => (O, O)
                 end)
       (Jql.run_jql
          (Sample.stubborn [Sample.ticket "PROJ-1" "A"; Sample.ticket "PROJ-2" "B";
                            Sample.ticket "PROJ-3" "C"] 3)
          "project = PROJ" ["summary"] 2 50 "table")
     = Some (2%nat, 2%nat).
Proof. split; reflexivity. Qed.

(** X20.  With a maximum of 10, batches of 50 and a total of 125, against
    a service that fills every request within this total, [run_jql]
    issues one batch request, of size 10, and returns 10 records.  With a
    positive maximum [run_jql] never returns more records than the
    maximum, whatever the service answers, any overshoot being cut off;
    and [list_tickets] comes to an end and stays within a positive
    maximum when the service never answers a request with more records
    than it asks for. *)
Theorem X20_cap_respected :
  (forall jira jql_query fields output_format,
      FetchSpec.fills_within jira 125 ->
      Jira.total (Jira.search_issues jira 0 (Jql.count_req jql_query)) = 125 ->
      exists r issues rows out,
        Jql.run_jql jira jql_query fields 10 50 output_format = Some r
        /\ Jql.returned r = inr (issues, rows, out)
        /\ Jql.log r = [Jira.CallSearch (Jql.count_req jql_query);
                        FetchSpec.batch jql_query fields (0, 10)]
        /\ PyVal.len issues = 10 /\ PyVal.len rows = 10)
  /\ (forall jira jql_query fields max_results items_per_batch output_format
             r issues rows out,
         0 < max_results ->
         Jql.run_jql jira jql_query fields max_results items_per_batch output_format = Some r ->
         Jql.returned r = inr (issues, rows, out) ->
         PyVal.len issues <= max_results /\ PyVal.len rows = PyVal.len issues)
  /\ (forall fuel jira project_key fields extra_fields output_format filters
             max_results items_per_batch,
         0 < max_results ->
         FetchSpec.never_more jira ->
         (Z.to_nat max_results <= fuel)%nat ->
         exists r,
           Tickets.list_tickets fuel jira project_key fields extra_fields output_format
             filters max_results items_per_batch = Some r
           /\ PyVal.len (Tickets.total_issues r) <= max_results).
Proof.
  split; [|split].
  - intros jira jql_query fields output_format Hfull Ht.
    destruct (run_jql_full_batches jira jql_query fields 10 50 output_format)
      as (issues & Hrun & Hlen); [now rewrite Ht | lia | lia | lia |].
    rewrite Ht in Hrun, Hlen. do 4 eexists. split; [exact Hrun|].
    cbn [Jql.returned Jql.log]. split; [reflexivity|]. split; [reflexivity|].
    split; [exact Hlen|]. unfold PyVal.len in *. now rewrite length_map.
  - intros jira jql_query fields max_results items_per_batch output_format
           r issues rows out Hm Hrun Hret.
    destruct (Z.eq_dec items_per_batch 0) as [->|Hb].
    { unfold Jql.run_jql, Jql.num_batches in Hrun. cbn [Z.eqb Py.raise] in Hrun.
      injection Hrun as <-. discriminate. }
    destruct (run_jql_shape jira jql_query fields max_results items_per_batch
                output_format Hb) as (issues' & l & Hloop & Hrun').
    rewrite Hrun' in Hrun. injection Hrun as <-. cbn [Jql.returned] in Hret.
    injection Hret as <- <- _. split.
    + apply (loop_capped _ _ _ _ _ _ _ _ _ _ _ _ Hm) in Hloop; [exact Hloop|].
      unfold PyVal.len. cbn [List.length]. lia.
    + unfold PyVal.len. now rewrite length_map.
  - intros fuel jira project_key fields extra_fields output_format filters
           max_results items_per_batch Hm Hnm Hf.
    unfold Tickets.list_tickets.
    destruct (tickets_loop_done jira (Tickets.build_jql project_key filters)
                (Tickets.with_key fields ++ extra_fields)%list max_results
                items_per_batch fuel 0 0 [] Hm) as (issues & l & Hloop).
    { unfold PyVal.len. cbn [List.length]. now rewrite Z.sub_0_r. }
    { unfold PyVal.len. cbn [List.length]. lia. }
    rewrite Hloop. eexists. split; [reflexivity|]. cbn [Tickets.total_issues].
    apply (tickets_loop_capped _ _ _ _ _ _ Hnm _ _ _ _ _ Hm) in Hloop; [exact Hloop|].
    unfold PyVal.len. cbn [List.length]. lia.
Qed.

Lemma X20_cap_respected_witness :
  (exists r issues rows out,
      Jql.run_jql (Sample.serving (repeat (Sample.ticket "PROJ-1" "Fix login") 125) [])
        "project = PROJ" ["summary"; "key"] 10 50 "csv" = Some r
      /\ Jql.returned r = inr (issues, rows, out)
      /\ Jql.log r = [Jira.CallSearch (Jql.count_req "project = PROJ");
                      FetchSpec.batch "project = PROJ" ["summary"; "key"] (0, 10)]
      /\ PyVal.len issues = 10 /\ PyVal.len rows = 10)
  /\ (exists r,
        Tickets.list_tickets 2
          (Sample.serving [Sample.ticket "PROJ-1" "A"; Sample.ticket "PROJ-2" "B";
                           Sample.ticket "PROJ-3" "C"] [])
          "PROJ" ["summary"] [] "table" [] 2 50 = Some r
        /\ PyVal.len (Tickets.total_issues r) <= 2).
Proof.
  destruct X20_cap_respected as (Ha & _ & Hc). split.
  - apply Ha; [|reflexivity].
    exact (serving_fills_within (repeat (Sample.ticket "PROJ-1" "Fix login") 125) []).
  - apply Hc; [lia | apply serving_never_more | cbn; lia].
Defined.

(** C8.  In a run of [run_jql] (with a batch size other than 0, for which
    it raises before fetching) or of [list_tickets], a batch request that
    is answered with an empty sequence is the last request: the loop ends
    there without raising, and the result is what was gathered before,
    fewer records than the total [run_jql] computed, and fewer than the
    maximum given to [list_tickets] when there is one. *)
Theorem C8_empty_batch_ends_fetch :
  (forall jira jql_query fields max_results items_per_batch output_format,
      items_per_batch <> 0 ->
      exists r issues rows out,
        Jql.run_jql jira jql_query fields max_results items_per_batch output_format = Some r
        /\ Jql.returned r = inr (issues, rows, out)
        /\ forall k req,
             nth_error (Jql.log r) (S k) = Some (Jira.CallSearch req) ->
             Jira.items (Jira.search_issues jira (S k) req) = [] ->
             List.length (Jql.log r) = S (S k)
             /\ PyVal.len issues
                < Jql.total_count max_results
                    (Jira.total (Jira.search_issues jira 0 (Jql.count_req jql_query))))
  /\ (forall fuel jira project_key fields extra_fields output_format filters
             max_results items_per_batch k req,
         nth_error
           (Jira.fetch_log
              (Tickets.loop jira (Tickets.build_jql project_key filters)
                 (Tickets.with_key fields ++ extra_fields)%list
                 max_results items_per_batch fuel 0 0 [])) k
         = Some (Jira.CallSearch req) ->
         Jira.items (Jira.search_issues jira k req) = [] ->
         exists r,
           Tickets.list_tickets fuel jira project_key fields extra_fields output_format
             filters max_results items_per_batch = Some r
           /\ List.length (Tickets.log r) = S k
           /\ (0 < max_results -> PyVal.len (Tickets.total_issues r) < max_results)).
Proof.
  split.
  - intros jira jql_query fields max_results items_per_batch output_format Hb.
    destruct (run_jql_shape jira jql_query fields max_results items_per_batch
                output_format Hb) as (issues & l & Hloop & Hrun).
    do 4 eexists. split; [exact Hrun|]. cbn [Jql.returned Jql.log].
    split; [reflexivity|].
    intros k req Hk He. cbn [nth_error] in Hk.
    pose proof (loop_empty_last jira jql_query fields max_results items_per_batch
                  (Jql.total_count max_results
                     (Jira.total (Jira.search_issues jira 0 (Jql.count_req jql_query))))
                  (Z.to_nat
                     (Jql.total_count max_results
                        (Jira.total (Jira.search_issues jira 0 (Jql.count_req jql_query)))))
                  1 0 [] k req eq_refl) as H.
    rewrite Hloop in H. cbn [Jira.fetch_log] in H.
    destruct (H Hk He) as (issues' & l' & [= <- <-] & Hl & Hi).
    cbn [List.length]. split; [now rewrite Hl | exact Hi].
  - intros fuel jira project_key fields extra_fields output_format filters
           max_results items_per_batch k req Hk He.
    destruct (tickets_loop_empty_last jira (Tickets.build_jql project_key filters)
                (Tickets.with_key fields ++ extra_fields)%list max_results
                items_per_batch fuel 0 0 [] k req)
      as (issues & l & Hloop & Hl & Hi); [intros H; exact H | exact Hk | exact He |].
    unfold Tickets.list_tickets. rewrite Hloop. eexists. split; [reflexivity|].
    cbn [Tickets.log Tickets.total_issues]. split; [exact Hl | exact Hi].
Qed.

Lemma C8_empty_batch_ends_fetch_witness :
  (exists r issues rows out,
      Jql.run_jql (Sample.stale [Sample.ticket "PROJ-1" "A"; Sample.ticket "PROJ-2" "B"] 6 2)
        "project = PROJ" ["summary"; "key"] 0 2 "table" = Some r
      /\ Jql.returned r = inr (issues, rows, out)
      /\ List.length (Jql.log r) = 3%nat
      /\ PyVal.len issues < 6)
  /\ (exists r,
        Tickets.list_tickets 7
          (Sample.stale [Sample.ticket "PROJ-1" "A"; Sample.ticket "PROJ-2" "B"] 6 1)
          "PROJ" ["summary"] [] "table" [] 5 2 = Some r
        /\ List.length (Tickets.log r) = 2%nat
        /\ (0 < 5 -> PyVal.len (Tickets.total_issues r) < 5)).
Proof.
  destruct C8_empty_batch_ends_fetch as [Hj Ht]. split.
  - destruct (Hj (Sample.stale [Sample.ticket "PROJ-1" "A"; Sample.ticket "PROJ-2" "B"] 6 2)
                "project = PROJ" ["summary"; "key"] 0 2 "table")
      as (r & issues & rows & out & Hrun & Hret & H); [lia|].
    exists r, issues, rows, out. split; [exact Hrun|]. split; [exact Hret|].
    apply (H 1%nat {| Jira.jql := "project = PROJ"; Jira.req_fields := ["summary"; "key"];
                      Jira.startAt := 2; Jira.maxResults := 2 |}).
    + injection Hrun as <-. reflexivity.
    + reflexivity.
  - apply (Ht 7%nat (Sample.stale [Sample.ticket "PROJ-1" "A"; Sample.ticket "PROJ-2" "B"] 6 1)
              "PROJ" ["summary"] [] "table" [] 5 2 1%nat
              {| Jira.jql := "project = PROJ"; Jira.req_fields := ["summary"; "key"];
                 Jira.startAt := 2; Jira.maxResults := 2 |}).
    + reflexivity.
    + reflexivity.
Defined.

(** X1.  The columns of [list_tickets] follow the field list it works with, the
    caller's list with the key appended when it was missing: the headers
    of the table and of the CSV file are this list, and the cell of a row
    under a field is the cell of the issue for this field. *)
Theorem X1_list_tickets_columns_follow_fields :
  forall fuel jira project_key fields extra_fields output_format filters
         max_results items_per_batch r,
    Tickets.list_tickets fuel jira project_key fields extra_fields output_format
      filters max_results items_per_batch = Some r ->
    let used := Tickets.fields_used r in
    let rows := map (fun issue => map (Tickets.cell issue) used) (Tickets.total_issues r) in
    (output_format = "table" -> Tickets.out r = Some (Jira.Table used rows))
    /\ (output_format = "csv" ->
        Tickets.out r = Some (Jira.CsvFile (project_key ++ "_tickets.csv") used rows)).
Proof.
  intros fuel jira project_key fields extra_fields output_format filters
         max_results items_per_batch r H used rows.
  apply list_tickets_run in H as [Hf Ho]. subst used rows. rewrite Hf, Ho.
  unfold Tickets.render. split; intros ->; cbn [String.eqb Ascii.eqb Bool.eqb].
  - reflexivity.
  - rewrite map_map. do 2 f_equal. apply map_ext. intros issue.
    apply csv_row_ticket_list.
Qed.

Lemma X1_list_tickets_columns_follow_fields_witness :
  Tickets.out
    {| Tickets.fields_used := ["status.name"; "key"; "summary"];
       Tickets.log :=
         [Jira.CallSearch {| Jira.jql := "project = PROJ";
                             Jira.req_fields := ["status.name"; "key"; "summary"];
                             Jira.startAt := 0; Jira.maxResults := 50 |}];
       Tickets.total_issues := [Sample.ticket "PROJ-1" "Fix login"];
       Tickets.out :=
         Some (Jira.CsvFile "PROJ_tickets.csv" ["status.name"; "key"; "summary"]
                 [[PyVal.VStr "Open"; PyVal.VStr "PROJ-1"; PyVal.VStr "Fix login"]]) |}
  = Some (Jira.CsvFile "PROJ_tickets.csv" ["status.name"; "key"; "summary"]
            [[PyVal.VStr "Open"; PyVal.VStr "PROJ-1"; PyVal.VStr "Fix login"]]).
Proof.
  destruct (X1_list_tickets_columns_follow_fields 3
              (Sample.serving [Sample.ticket "PROJ-1" "Fix login"] [])
              "PROJ" ["status.name"; "key"; "summary"] [] "csv" [] 0 50 _ eq_refl) as [_ H].
  exact (H eq_refl).
Defined.

(** * Further properties *)

(** ** The requests of the fetch loops *)
Section RequestFacts.
Import Py PyVal Jira.

Variable jira : JIRA.
Variable jql_query : string.
Variable fields : list string.
Variables max_results items_per_batch total : Z.

Lemma sorted_offsets_cons (start start' : Z) (r : SearchReq) (l : list call) :
  startAt r = start -> start < start' ->
  StronglySorted Z.lt (Shape.offsets l) /\ Forall (fun o => start' <= o) (Shape.offsets l) ->
  StronglySorted Z.lt (Shape.offsets (CallSearch r :: l))
  /\ Forall (fun o => start <= o) (Shape.offsets (CallSearch r :: l)).
Proof.
  intros Hr Hlt [Hs Hf]. cbn [Shape.offsets flat_map app]. fold (Shape.offsets l).
  rewrite Hr. split.
  - constructor; [exact Hs|]. eapply Forall_impl; [|exact Hf]. cbn. intros; lia.
  - constructor; [lia|]. eapply Forall_impl; [|exact Hf]. cbn. intros; lia.
Qed.

(** [run_jql]: the log is never longer than the distance to the total. *)
Lemma jql_log_bound (fuel : nat) :
  forall n start acc,
    (List.length (fetch_log (Jql.loop jira jql_query fields max_results items_per_batch
                               total fuel n start acc))
     <= Z.to_nat (total - start))%nat.
Proof.
  induction fuel as [|fuel IH]; intros n start acc; cbn [Jql.loop].
  - destruct (start <? total)%Z; cbn; lia.
  - destruct (Z.ltb_spec start total) as [Hlt|Hge]; [|cbn; lia].
    destruct (items _) as [|i r] eqn:E; [cbn; lia|].
    destruct (_ && _); [cbn; lia|].
    rewrite fetch_log_with_call. cbn [List.length].
    specialize (IH (S n) (start + len (i :: r)) (acc ++ i :: r)%list).
    rewrite len_cons in *. pose proof (len_nonneg r). lia.
Qed.

(** [run_jql]: offsets go up, sizes are within the batch size and the
    total. *)
Lemma jql_requests (fuel : nat) :
  1 <= items_per_batch ->
  forall n start acc,
    let l := fetch_log (Jql.loop jira jql_query fields max_results items_per_batch
                          total fuel n start acc) in
    (StronglySorted Z.lt (Shape.offsets l) /\ Forall (fun o => start <= o) (Shape.offsets l))
    /\ Forall (Shape.batch_within items_per_batch total) l.
Proof.
  intros Hb. induction fuel as [|fuel IH]; intros n start acc; cbn [Jql.loop].
  - destruct (start <? total)%Z; cbn; repeat constructor.
  - destruct (Z.ltb_spec start total) as [Hlt|Hge]; [|cbn; repeat constructor].
    set (req := {| jql := jql_query; req_fields := fields; startAt := start;
                   maxResults := Z.min items_per_batch (total - start) |}).
    assert (Hreq : Shape.batch_within items_per_batch total (CallSearch req))
      by (cbn; lia).
    assert (Hone : (StronglySorted Z.lt (Shape.offsets [CallSearch req])
                    /\ Forall (fun o => start <= o) (Shape.offsets [CallSearch req]))
                   /\ Forall (Shape.batch_within items_per_batch total) [CallSearch req]).
    { split; [|constructor; [exact Hreq | constructor]].
      cbn. split; repeat constructor. lia. }
    destruct (items _) as [|i r] eqn:E; [exact Hone|].
    destruct (_ && _); [exact Hone|].
    rewrite fetch_log_with_call.
    destruct (IH (S n) (start + len (i :: r)) (acc ++ i :: r)%list) as [Hs Hf].
    split; [|constructor; assumption].
    apply (sorted_offsets_cons start (start + len (i :: r))); [reflexivity | | exact Hs].
    rewrite len_cons. pose proof (len_nonneg r). lia.
Qed.

(** [run_jql]: the result is what the service returned, answer after
    answer, cut at a positive maximum. *)
Lemma jql_result_is_responses (fuel : nat) :
  forall n start acc issues l,
    (0 < max_results -> len acc <= max_results) ->
    Jql.loop jira jql_query fields max_results items_per_batch total fuel n start acc
    = Done issues l ->
    issues = Shape.trim max_results (acc ++ Shape.responses jira n l)%list.
Proof.
  assert (Hkeep : forall acc : list Issue,
             (0 < max_results -> len acc <= max_results) ->
             acc = Shape.trim max_results (acc ++ [])%list).
  { intros acc Hacc. rewrite app_nil_r. unfold Shape.trim.
    destruct (Z.gtb_spec max_results 0) as [Hm|]; [|reflexivity].
    symmetry. apply firstn_all2. specialize (Hacc Hm). unfold len in Hacc. lia. }
  induction fuel as [|fuel IH]; intros n start acc issues l Hacc; cbn [Jql.loop].
  - destruct (start <? total)%Z; [discriminate|]. intros [= <- <-]. now apply Hkeep.
  - destruct (start <? total)%Z; [|intros [= <- <-]; now apply Hkeep].
    destruct (items _) as [|i r] eqn:E.
    + intros [= <- <-]. cbn [Shape.responses]. rewrite E. now apply Hkeep.
    + unfold Shape.trim.
      destruct (Z.gtb_spec max_results 0) as [Hm|Hm]; cbn [andb].
      * destruct (Z.geb_spec (len (acc ++ i :: r)) max_results) as [Hge|Hlt].
        -- intros [= <- <-]. cbn [Shape.responses]. now rewrite E, app_nil_r.
        -- intros Hrun. apply with_call_done in Hrun as (l' & Hrun & ->).
           apply IH in Hrun; [|intros _; lia].
           unfold Shape.trim in Hrun. destruct (Z.gtb_spec max_results 0); [|lia].
           cbn [Shape.responses]. now rewrite E, app_assoc.
      * intros Hrun. apply with_call_done in Hrun as (l' & Hrun & ->).
        apply IH in Hrun; [|intros; lia].
        unfold Shape.trim in Hrun. destruct (Z.gtb_spec max_results 0); [lia|].
        cbn [Shape.responses]. now rewrite E, app_assoc.
Qed.

(** [list_tickets]: offsets go up and no request asks for more than the
    batch size. *)
Lemma tickets_requests (fuel : nat) :
  forall n start acc,
    let l := fetch_log (Tickets.loop jira jql_query fields max_results items_per_batch
                          fuel n start acc) in
    (StronglySorted Z.lt (Shape.offsets l) /\ Forall (fun o => start <= o) (Shape.offsets l))
    /\ Forall (Shape.size_at_most items_per_batch) l.
Proof.
  induction fuel as [|fuel IH]; intros n start acc; cbn [Tickets.loop].
  - cbn. repeat constructor.
  - set (size := if max_results >? 0
                 then Z.min items_per_batch (max_results - len acc)
                 else items_per_batch).
    set (req := {| jql := jql_query; req_fields := fields; startAt := start;
                   maxResults := size |}).
    assert (Hreq : Shape.size_at_most items_per_batch (CallSearch req)).
    { cbn. unfold size. destruct (max_results >? 0); lia. }
    assert (Hone : (StronglySorted Z.lt (Shape.offsets [CallSearch req])
                    /\ Forall (fun o => start <= o) (Shape.offsets [CallSearch req]))
                   /\ Forall (Shape.size_at_most items_per_batch) [CallSearch req]).
    { split; [|constructor; [exact Hreq | constructor]].
      cbn. split; repeat constructor. lia. }
    destruct (items _) as [|i r] eqn:E; [exact Hone|].
    destruct (_ || _); [exact Hone|].
    rewrite fetch_log_with_call.
    destruct (IH (S n) (start + len (i :: r)) (acc ++ i :: r)%list) as [Hs Hf].
    split; [|constructor; assumption].
    apply (sorted_offsets_cons start (start + len (i :: r))); [reflexivity | | exact Hs].
    rewrite len_cons. pose proof (len_nonneg r). lia.
Qed.

(** [list_tickets]: the result is what the service returned, answer after
    answer. *)
Lemma tickets_result_is_responses (fuel : nat) :
  forall n start acc issues l,
    Tickets.loop jira jql_query fields max_results items_per_batch fuel n start acc
    = Done issues l ->
    issues = (acc ++ Shape.responses jira n l)%list.
Proof.
  induction fuel as [|fuel IH]; intros n start acc issues l; cbn [Tickets.loop];
    [discriminate|].
  destruct (items _) as [|i r] eqn:E.
  - intros [= <- <-]. cbn [Shape.responses]. rewrite E. cbn [app]. now rewrite app_nil_r.
  - destruct (_ || _).
    + intros [= <- <-]. cbn [Shape.responses]. now rewrite E, app_nil_r.
    + intros Hrun. apply with_call_done in Hrun as (l' & Hrun & ->).
      apply IH in Hrun. cbn [Shape.responses]. now rewrite E, app_assoc.
Qed.

(** [list_tickets] without maximum does not end while every batch comes
    back full. *)
Lemma tickets_loop_runs_on (fuel : nat) :
  FetchSpec.full_batches jira -> 1 <= items_per_batch -> max_results <= 0 ->
  forall n start acc,
    exists l,
      Tickets.loop jira jql_query fields max_results items_per_batch fuel n start acc
      = OutOfFuel l.
Proof.
  intros Hfull Hb Hm. induction fuel as [|fuel IH]; intros n start acc; cbn [Tickets.loop].
  - eauto.
  - destruct (Z.gtb_spec max_results 0) as [|_]; [lia|].
    set (req := {| jql := jql_query; req_fields := fields; startAt := start;
                   maxResults := items_per_batch |}).
    pose proof (Hfull n req ltac:(cbn; lia)) as Hlen. cbn [maxResults req] in Hlen.
    destruct (items (search_issues jira n req)) as [|i r] eqn:E.
    { unfold len in Hlen. cbn [List.length] in Hlen. lia. }
    rewrite Hlen. destruct (Z.ltb_spec items_per_batch items_per_batch); [lia|].
    cbn [orb andb].
    destruct (IH (S n) (start + items_per_batch) (acc ++ i :: r)%list) as [l ->].
    cbn [with_call]. eauto.
Qed.

End RequestFacts.

(** ** Against a service that holds the issues and answers with slices *)
Section HonestService.
Import Py PyVal Jira.

Lemma firstn_skipn_app {A} (a b : nat) (l : list A) :
  (firstn a l ++ firstn b (skipn a l))%list = firstn (a + b) l.
Proof.
  revert l. induction a as [|a IH]; intros l; [reflexivity|].
  destruct l as [|x l]; cbn [firstn skipn Nat.add app].
  - now rewrite firstn_nil.
  - now rewrite IH.
Qed.

Lemma len_slice {A} (start size : Z) (db : list A) :
  0 <= start -> 0 <= size ->
  len (firstn (Z.to_nat size) (skipn (Z.to_nat start) db))
  = Z.min size (Z.max 0 (len db - start)).
Proof.
  intros Hs Hz. unfold len. rewrite length_firstn, length_skipn. lia.
Qed.

Lemma slice_extends {A} (start : Z) (db resp : list A) (size : Z) :
  0 <= start -> 0 <= size ->
  resp = firstn (Z.to_nat size) (skipn (Z.to_nat start) db) ->
  len resp = size ->
  (firstn (Z.to_nat start) db ++ resp)%list = firstn (Z.to_nat (start + len resp)) db.
Proof.
  intros Hs Hz -> Hlen. rewrite Hlen, firstn_skipn_app. f_equal. lia.
Qed.

Variable db : list Issue.
Variable cs : list Comment.
Variable jql_query : string.
Variable fields : list string.
Variables max_results items_per_batch : Z.

Lemma jql_loop_serving (total : Z) (fuel : nat) :
  1 <= items_per_batch -> total <= len db -> (0 < max_results -> total <= max_results) ->
  forall n start acc issues l,
    0 <= start <= total ->
    acc = firstn (Z.to_nat start) db ->
    Jql.loop (Sample.serving db cs) jql_query fields max_results items_per_batch
      total fuel n start acc = Done issues l ->
    issues = firstn (Z.to_nat total) db.
Proof.
  intros Hb Ht Hcap. induction fuel as [|fuel IH]; intros n start acc issues l Hs Hacc;
    cbn [Jql.loop].
  - destruct (Z.ltb_spec start total); [discriminate|].
    intros [= <- _]. rewrite Hacc. f_equal. lia.
  - destruct (Z.ltb_spec start total) as [Hlt|Hge];
      [|intros [= <- _]; rewrite Hacc; f_equal; lia].
    cbn [Sample.serving search_issues items maxResults startAt].
    set (size := Z.min items_per_batch (total - start)).
    assert (Hsize : 1 <= size <= total - start) by (unfold size; lia).
    remember (firstn (Z.to_nat size) (skipn (Z.to_nat start) db)) as resp eqn:Hresp.
    assert (Hlen : len resp = size).
    { rewrite Hresp, len_slice by lia. lia. }
    pose proof (slice_extends start db resp size ltac:(lia) ltac:(lia) Hresp Hlen) as Hext.
    rewrite <- Hacc in Hext.
    destruct resp as [|i r]; [unfold len in Hlen; cbn [List.length] in Hlen; lia|].
    assert (Hacc' : len (acc ++ i :: r) = start + size).
    { rewrite Hext. unfold len. rewrite length_firstn. unfold len in Ht, Hlen. lia. }
    destruct (Z.gtb_spec max_results 0) as [Hm|Hm]; cbn [andb].
    + destruct (Z.geb_spec (len (acc ++ i :: r)) max_results) as [Hge|Hlt'].
      * intros [= <- _]. specialize (Hcap Hm).
        rewrite firstn_all2 by (unfold len in Hacc'; lia).
        rewrite Hext, Hlen. f_equal. lia.
      * intros Hrun. apply with_call_done in Hrun as (l' & Hrun & _).
        eapply IH; [| exact Hext | exact Hrun]. lia.
    + intros Hrun. apply with_call_done in Hrun as (l' & Hrun & _).
      eapply IH; [| exact Hext | exact Hrun]. lia.
Qed.

Lemma tickets_loop_serving (fuel : nat) :
  1 <= items_per_batch ->
  forall n start acc,
    0 <= start <= len db ->
    acc = firstn (Z.to_nat start) db ->
    (0 < max_results -> start < max_results) ->
    (Z.to_nat (len db - start) < fuel)%nat ->
    exists l,
      Tickets.loop (Sample.serving db cs) jql_query fields max_results items_per_batch
        fuel n start acc = Done (FilterSpec.first max_results db) l.
Proof.
  intros Hb. induction fuel as [|fuel IH]; intros n start acc Hs Hacc Hcap Hf;
    cbn [Tickets.loop]; [lia|].
  assert (Hla : len acc = start).
  { rewrite Hacc. unfold len. rewrite length_firstn. unfold len in Hs. lia. }
  rewrite Hla.
  cbn [Sample.serving search_issues items maxResults startAt].
  set (size := if max_results >? 0
               then Z.min items_per_batch (max_results - start)
               else items_per_batch).
  assert (Hsize : 1 <= size /\ (0 < max_results -> start + size <= max_results)).
  { unfold size. destruct (Z.gtb_spec max_results 0); lia. }
  remember (firstn (Z.to_nat size) (skipn (Z.to_nat start) db)) as resp eqn:Hresp.
  assert (Hlen : len resp = Z.min size (len db - start)).
  { rewrite Hresp, len_slice by lia. lia. }
  assert (Hext : (acc ++ resp)%list = firstn (Z.to_nat (start + len resp)) db).
  { rewrite Hacc, Hresp, firstn_skipn_app. rewrite <- Hresp.
    destruct (Z.le_gt_cases size (len db - start)) as [Hle|Hgt].
    - f_equal. unfold len in *. lia.
    - rewrite !firstn_all2 by (unfold len in *; lia). reflexivity. }
  assert (Hall : forall k, len db <= k -> firstn (Z.to_nat k) db = db).
  { intros k Hk. apply firstn_all2. unfold len in Hk. lia. }
  assert (Hfirst : (0 < max_results -> len db <= max_results) ->
                   FilterSpec.first max_results db = db).
  { intros H. unfold FilterSpec.first.
    destruct (Z.leb_spec max_results 0); [reflexivity|]. apply Hall. lia. }
  destruct resp as [|i r].
  - unfold len in Hlen. cbn [List.length] in Hlen.
    eexists. f_equal. rewrite Hfirst by (unfold len in *; lia).
    rewrite Hacc. apply Hall. unfold len in *. lia.
  - assert (Hk : 1 <= len (i :: r)) by (rewrite len_cons; pose proof (len_nonneg r); lia).
    assert (Hacc' : len (acc ++ i :: r) = start + len (i :: r)).
    { rewrite len_app. lia. }
    rewrite Hacc'.
    destruct (Z.ltb_spec (len (i :: r)) size) as [Hshort|Hfull]; cbn [orb].
    + eexists. f_equal. rewrite Hfirst by lia. rewrite Hext. apply Hall. lia.
    + destruct (Z.gtb_spec max_results 0) as [Hm|Hm]; cbn [andb].
      * destruct (Z.geb_spec (start + len (i :: r)) max_results) as [Hge|Hlt].
        -- eexists. f_equal. rewrite Hext. unfold FilterSpec.first.
           destruct (Z.leb_spec max_results 0); [lia|]. f_equal. lia.
        -- destruct (IH (S n) (start + len (i :: r)) (acc ++ i :: r)%list) as [l ->];
             [lia | exact Hext | intros _; exact Hlt | lia |].
           cbn [with_call]. eauto.
      * destruct (IH (S n) (start + len (i :: r)) (acc ++ i :: r)%list) as [l ->];
          [lia | exact Hext | intros; lia | lia |].
        cbn [with_call]. eauto.
Qed.

End HonestService.

(** X2.  [run_jql] always comes to an end, whatever the service answers:
    after the count-only request it issues at most as many batch requests
    as the total it works towards (none when this total is not positive). *)
Theorem X2_run_jql_always_ends :
  forall jira jql_query fields max_results items_per_batch output_format,
  exists r,
    Jql.run_jql jira jql_query fields max_results items_per_batch output_format = Some r
    /\ (List.length (Jql.log r)
        <= 1 + Z.to_nat (Jql.total_count max_results
                           (Jira.total (Jira.search_issues jira 0 (Jql.count_req jql_query)))))%nat.
Proof.
  intros jira jql_query fields max_results items_per_batch output_format.
  destruct (Z.eq_dec items_per_batch 0) as [->|Hb].
  - unfold Jql.run_jql, Jql.num_batches. cbn [Z.eqb Py.raise].
    eexists. split; [reflexivity|]. cbn [Jql.log List.length]. lia.
  - destruct (run_jql_shape jira jql_query fields max_results items_per_batch
                output_format Hb) as (issues & l & Hloop & Hrun).
    eexists. split; [exact Hrun|]. cbn [Jql.log List.length].
    pose proof (jql_log_bound jira jql_query fields max_results items_per_batch
                  (Jql.total_count max_results
                     (Jira.total (Jira.search_issues jira 0 (Jql.count_req jql_query))))
                  (Z.to_nat
                     (Jql.total_count max_results
                        (Jira.total (Jira.search_issues jira 0 (Jql.count_req jql_query)))))
                  1 0 []) as H.
    rewrite Hloop in H. cbn [Jira.fetch_log] in H. rewrite Z.sub_0_r in H. lia.
Qed.

(** X3.  With a batch size of 1 at least, the batch requests of [run_jql]
    are at offsets that start at 0 or above and go strictly up, so that
    no offset is asked for twice, and each asks for between 1 and
    [items_per_batch] records and ends within the total worked towards. *)
Theorem X3_run_jql_requests_advance :
  forall jira jql_query fields max_results items_per_batch output_format,
    1 <= items_per_batch ->
    exists r batches,
      Jql.run_jql jira jql_query fields max_results items_per_batch output_format = Some r
      /\ Jql.log r = Jira.CallSearch (Jql.count_req jql_query) :: batches
      /\ StronglySorted Z.lt (Shape.offsets batches)
      /\ Forall (fun o => 0 <= o) (Shape.offsets batches)
      /\ Forall (Shape.batch_within items_per_batch
                   (Jql.total_count max_results
                      (Jira.total (Jira.search_issues jira 0 (Jql.count_req jql_query)))))
           batches.
Proof.
  intros jira jql_query fields max_results items_per_batch output_format Hb.
  destruct (run_jql_shape jira jql_query fields max_results items_per_batch
              output_format ltac:(lia)) as (issues & l & Hloop & Hrun).
  eexists. exists l. split; [exact Hrun|]. cbn [Jql.log]. split; [reflexivity|].
  pose proof (jql_requests jira jql_query fields max_results items_per_batch
                (Jql.total_count max_results
                   (Jira.total (Jira.search_issues jira 0 (Jql.count_req jql_query))))
                (Z.to_nat
                   (Jql.total_count max_results
                      (Jira.total (Jira.search_issues jira 0 (Jql.count_req jql_query)))))
                Hb 1 0 []) as H.
  cbv zeta in H. rewrite Hloop in H. cbn [Jira.fetch_log] in H.
  destruct H as [[Hs Hf] Hw]. repeat split; assumption.
Qed.

Lemma X3_run_jql_requests_advance_witness :
  exists r batches,
    Jql.run_jql (Sample.stubborn [Sample.ticket "PROJ-1" "Fix login"] 4)
      "project = PROJ" ["summary"] 0 2 "table" = Some r
    /\ Jql.log r = Jira.CallSearch (Jql.count_req "project = PROJ") :: batches
    /\ StronglySorted Z.lt (Shape.offsets batches)
    /\ Forall (fun o => 0 <= o) (Shape.offsets batches)
    /\ Forall (Shape.batch_within 2
                 (Jql.total_count 0
                    (Jira.total
                       (Jira.search_issues
                          (Sample.stubborn [Sample.ticket "PROJ-1" "Fix login"] 4) 0
                          (Jql.count_req "project = PROJ")))))
         batches.
Proof.
  apply (X3_run_jql_requests_advance
           (Sample.stubborn [Sample.ticket "PROJ-1" "Fix login"] 4)
           "project = PROJ" ["summary"] 0 2 "table").
  lia.
Defined.

(** X4.  What [run_jql] returns is what the service returned to its batch
    requests, one answer after the other in the order of the requests,
    cut to the first [max_results] records when a positive maximum is
    given: nothing is dropped, repeated or reordered. *)
Theorem X4_run_jql_result_is_answers :
  forall jira jql_query fields max_results items_per_batch output_format,
    items_per_batch <> 0 ->
    exists r batches issues rows out,
      Jql.run_jql jira jql_query fields max_results items_per_batch output_format = Some r
      /\ Jql.log r = Jira.CallSearch (Jql.count_req jql_query) :: batches
      /\ Jql.returned r = inr (issues, rows, out)
      /\ issues = Shape.trim max_results (Shape.responses jira 1 batches).
Proof.
  intros jira jql_query fields max_results items_per_batch output_format Hb.
  destruct (run_jql_shape jira jql_query fields max_results items_per_batch
              output_format Hb) as (issues & l & Hloop & Hrun).
  eexists. exists l, issues. do 2 eexists. split; [exact Hrun|].
  cbn [Jql.log Jql.returned]. split; [reflexivity|]. split; [reflexivity|].
  apply jql_result_is_responses in Hloop; [exact Hloop|].
  intros. unfold PyVal.len. cbn [List.length]. lia.
Qed.

Lemma X4_run_jql_result_is_answers_witness :
  exists r batches issues rows out,
    Jql.run_jql (Sample.stubborn [Sample.ticket "PROJ-1" "A"; Sample.ticket "PROJ-2" "B"] 5)
      "project = PROJ" ["summary"] 3 2 "table" = Some r
    /\ Jql.log r = Jira.CallSearch (Jql.count_req "project = PROJ") :: batches
    /\ Jql.returned r = inr (issues, rows, out)
    /\ issues
       = Shape.trim 3
           (Shape.responses
              (Sample.stubborn [Sample.ticket "PROJ-1" "A"; Sample.ticket "PROJ-2" "B"] 5)
              1 batches).
Proof.
  apply (X4_run_jql_result_is_answers
           (Sample.stubborn [Sample.ticket "PROJ-1" "A"; Sample.ticket "PROJ-2" "B"] 5)
           "project = PROJ" ["summary"] 3 2 "table").
  lia.
Defined.

(** X5.  In every run of [list_tickets] that ends, the requests are at
    offsets that start at 0 or above and go strictly up, none asks for
    more than [items_per_batch] records, and the issues rendered are what
    the service returned, one answer after the other in the order of the
    requests, uncut. *)
Theorem X5_list_tickets_requests_and_result :
  forall fuel jira project_key fields extra_fields output_format filters
         max_results items_per_batch r,
    Tickets.list_tickets fuel jira project_key fields extra_fields output_format
      filters max_results items_per_batch = Some r ->
    StronglySorted Z.lt (Shape.offsets (Tickets.log r))
    /\ Forall (fun o => 0 <= o) (Shape.offsets (Tickets.log r))
    /\ Forall (Shape.size_at_most items_per_batch) (Tickets.log r)
    /\ Tickets.total_issues r = Shape.responses jira 0 (Tickets.log r).
Proof.
  intros fuel jira project_key fields extra_fields output_format filters
         max_results items_per_batch r.
  unfold Tickets.list_tickets.
  pose proof (tickets_requests jira (Tickets.build_jql project_key filters)
                (Tickets.with_key fields ++ extra_fields)%list max_results
                items_per_batch fuel 0 0 []) as H. cbv zeta in H.
  destruct (Tickets.loop _ _ _ _ _ _ _ _ _) as [issues l|l] eqn:E; [|discriminate].
  intros [= <-]. cbn [Tickets.log Tickets.total_issues Jira.fetch_log] in *.
  destruct H as [[Hs Hf] Hw]. repeat split; try assumption.
  apply tickets_result_is_responses in E. exact E.
Qed.

Lemma X5_list_tickets_requests_and_result_witness :
  exists r,
    Tickets.list_tickets 9
      (Sample.serving [Sample.ticket "PROJ-1" "A"; Sample.ticket "PROJ-2" "B";
                       Sample.ticket "PROJ-3" "C"] [])
      "PROJ" ["summary"] [] "json" [] 0 2 = Some r
    /\ StronglySorted Z.lt (Shape.offsets (Tickets.log r))
    /\ Tickets.total_issues r
       = Shape.responses
           (Sample.serving [Sample.ticket "PROJ-1" "A"; Sample.ticket "PROJ-2" "B";
                            Sample.ticket "PROJ-3" "C"] [])
           0 (Tickets.log r).
Proof.
  eexists. split; [reflexivity|].
  destruct (X5_list_tickets_requests_and_result 9
              (Sample.serving [Sample.ticket "PROJ-1" "A"; Sample.ticket "PROJ-2" "B";
                               Sample.ticket "PROJ-3" "C"] [])
              "PROJ" ["summary"] [] "json" [] 0 2 _ eq_refl) as (Hs & _ & _ & Hr).
  split; [exact Hs | exact Hr].
Defined.

(** X6.  Against a service that holds a list of matching issues and
    answers every search with the slice asked for, [run_jql] (batch size 1
    at least, maximum 0 or positive) returns the issues of the service in
    their order: all of them without maximum, the first [max_results] of
    them otherwise. *)
Theorem X6_run_jql_returns_the_issues :
  forall db cs jql_query fields max_results items_per_batch output_format,
    1 <= items_per_batch -> 0 <= max_results ->
    exists r rows out,
      Jql.run_jql (Sample.serving db cs) jql_query fields max_results items_per_batch
        output_format = Some r
      /\ Jql.returned r = inr (FilterSpec.first max_results db, rows, out).
Proof.
  intros db cs jql_query fields max_results items_per_batch output_format Hb Hm.
  destruct (run_jql_shape (Sample.serving db cs) jql_query fields max_results
              items_per_batch output_format ltac:(lia)) as (issues & l & Hloop & Hrun).
  cbn [Sample.serving Jira.search_issues Jira.total] in Hloop.
  set (tc := Jql.total_count max_results (PyVal.len db)) in *.
  assert (Htc : 0 <= tc <= PyVal.len db /\ (0 < max_results -> tc <= max_results)).
  { unfold tc, Jql.total_count. pose proof (len_nonneg db).
    destruct (Z.eqb_spec max_results 0); lia. }
  apply (jql_loop_serving db cs jql_query fields max_results items_per_batch tc)
    in Hloop; [| lia | lia | tauto | lia | reflexivity].
  do 3 eexists. split; [exact Hrun|]. cbn [Jql.returned]. do 3 f_equal.
  rewrite Hloop. unfold FilterSpec.first, tc, Jql.total_count.
  destruct (Z.eqb_spec max_results 0) as [->|Hne].
  - cbn [Z.leb Z.compare]. apply firstn_all2. unfold PyVal.len. lia.
  - destruct (Z.leb_spec max_results 0); [lia|].
    destruct (Z.le_gt_cases max_results (PyVal.len db)).
    + now rewrite Z.min_l by lia.
    + rewrite Z.min_r by lia. rewrite !firstn_all2; [reflexivity | |];
        unfold PyVal.len in *; lia.
Qed.

Lemma X6_run_jql_returns_the_issues_witness :
  exists r rows out,
    Jql.run_jql
      (Sample.serving [Sample.ticket "PROJ-1" "A"; Sample.ticket "PROJ-2" "B";
                       Sample.ticket "PROJ-3" "C"] [])
      "project = PROJ" ["summary"] 0 2 "table" = Some r
    /\ Jql.returned r
       = inr (FilterSpec.first 0 [Sample.ticket "PROJ-1" "A"; Sample.ticket "PROJ-2" "B";
                                 Sample.ticket "PROJ-3" "C"], rows, out).
Proof.
  apply (X6_run_jql_returns_the_issues
           [Sample.ticket "PROJ-1" "A"; Sample.ticket "PROJ-2" "B"; Sample.ticket "PROJ-3" "C"]
           [] "project = PROJ" ["summary"] 0 2 "table"); lia.
Defined.

(** X7.  Against the same service [list_tickets] (batch size 1 at least)
    ends within one iteration more than there are issues, and renders the
    issues of the service in their order: all of them without positive
    maximum, the first [max_results] of them otherwise. *)
Theorem X7_list_tickets_renders_the_issues :
  forall fuel db cs project_key fields extra_fields output_format filters
         max_results items_per_batch,
    1 <= items_per_batch ->
    (List.length db < fuel)%nat ->
    exists r,
      Tickets.list_tickets fuel (Sample.serving db cs) project_key fields extra_fields
        output_format filters max_results items_per_batch = Some r
      /\ Tickets.total_issues r = FilterSpec.first max_results db.
Proof.
  intros fuel db cs project_key fields extra_fields output_format filters
         max_results items_per_batch Hb Hf.
  unfold Tickets.list_tickets.
  destruct (tickets_loop_serving db cs (Tickets.build_jql project_key filters)
              (Tickets.with_key fields ++ extra_fields)%list max_results
              items_per_batch fuel Hb 0 0 []) as [l ->].
  - pose proof (len_nonneg db). lia.
  - reflexivity.
  - intros H. exact H.
  - unfold PyVal.len. lia.
  - eexists. split; reflexivity.
Qed.

Lemma X7_list_tickets_renders_the_issues_witness :
  exists r,
    Tickets.list_tickets 4
      (Sample.serving [Sample.ticket "PROJ-1" "A"; Sample.ticket "PROJ-2" "B";
                       Sample.ticket "PROJ-3" "C"] [])
      "PROJ" ["summary"] [] "table" [] 2 50 = Some r
    /\ Tickets.total_issues r
       = FilterSpec.first 2 [Sample.ticket "PROJ-1" "A"; Sample.ticket "PROJ-2" "B";
                             Sample.ticket "PROJ-3" "C"].
Proof.
  apply (X7_list_tickets_renders_the_issues 4
           [Sample.ticket "PROJ-1" "A"; Sample.ticket "PROJ-2" "B"; Sample.ticket "PROJ-3" "C"]
           [] "PROJ" ["summary"] [] "table" [] 2 50); [lia | cbn; lia].
Defined.

(** X8.  [list_tickets] without positive maximum has no bound of its own:
    while the service fills every batch, its loop goes on, and no number
    of iterations ends it. *)
Theorem X8_list_tickets_runs_on :
  forall jira project_key fields extra_fields output_format filters
         max_results items_per_batch,
    FetchSpec.full_batches jira -> 1 <= items_per_batch -> max_results <= 0 ->
    forall fuel,
      Tickets.list_tickets fuel jira project_key fields extra_fields output_format
        filters max_results items_per_batch = None.
Proof.
  intros jira project_key fields extra_fields output_format filters
         max_results items_per_batch Hfull Hb Hm fuel.
  unfold Tickets.list_tickets.
  destruct (tickets_loop_runs_on jira (Tickets.build_jql project_key filters)
              (Tickets.with_key fields ++ extra_fields)%list max_results
              items_per_batch fuel Hfull Hb Hm 0 0 []) as [l ->].
  reflexivity.
Qed.

Lemma X8_list_tickets_runs_on_witness :
  Tickets.list_tickets 1000 (Sample.generous 125) "PROJ" ["summary"] [] "table" [] 0 50
  = None.
Proof.
  apply (X8_list_tickets_runs_on (Sample.generous 125) "PROJ" ["summary"] [] "table" [] 0 50
           (generous_full_batches 125)); lia.
Defined.

(** ** The comment filter, further *)
Section FilterAlgebra.
Import Py PyStr Jira Comments.

Lemma forallb_permutation {A} (p : A -> bool) (l l' : list A) :
  Permutation l l' -> forallb p l = forallb p l'.
Proof.
  induction 1 as [|x l l' _ IH|x y l|l l' l'' _ IH1 _ IH2]; cbn [forallb].
  - reflexivity.
  - now rewrite IH.
  - now destruct (p x), (p y).
  - now rewrite IH1.
Qed.

Lemma filter_andb {A} (p q : A -> bool) (l : list A) :
  filter (fun a => p a && q a) l = filter q (filter p l).
Proof.
  induction l as [|a l IH]; [reflexivity|]. cbn [filter].
  destruct (p a); cbn [andb filter]; [now rewrite IH | exact IH].
Qed.

Lemma lower_char_idempotent (c : ascii) : lower_char (lower_char c) = lower_char c.
Proof. destruct c as [[] [] [] [] [] [] [] []]; reflexivity. Qed.

Lemma lower_idempotent (s : string) : lower (lower s) = lower s.
Proof.
  induction s as [|c s IH]; [reflexivity|].
  cbn [lower]. now rewrite lower_char_idempotent, IH.
Qed.

(** Lowering neither makes nor hides a colon. *)
Lemma lower_char_colon (c : ascii) : lower_char c = ":"%char <-> c = ":"%char.
Proof.
  destruct c as [[] [] [] [] [] [] [] []]; vm_compute; split; intros H;
    first [reflexivity | discriminate H].
Qed.

Lemma prefix_single (a c : ascii) (r : string) :
  prefix (String a EmptyString) (String c r) = if ascii_dec a c then true else false.
Proof. cbn [prefix]. now destruct (ascii_dec a c), r. Qed.

Lemma partition_colon_lower (s : string) :
  partition ":" (lower s)
  = match partition ":" s with
    | Some (a, b) => Some (lower a, lower b)
    | None => None
    end.
Proof.
  induction s as [|c s IH]; [reflexivity|].
  cbn [lower partition]. rewrite !prefix_single.
  destruct (ascii_dec ":" c) as [<-|N].
  - reflexivity.
  - destruct (ascii_dec ":" (lower_char c)) as [E|_].
    + symmetry in E. apply (proj1 (lower_char_colon c)) in E. congruence.
    + rewrite IH. now destruct (partition ":" s) as [[a b]|].
Qed.

Lemma try_filter_lower (c : Comment) (token : string) :
  try_filter c (lower token) = try_filter c token.
Proof.
  unfold try_filter, split1. rewrite partition_colon_lower.
  destruct (partition ":" token) as [[f v]|]; [|reflexivity].
  cbn [unpack2 bind ret]. now rewrite !lower_idempotent.
Qed.

Lemma accepts_lower (c : Comment) (token : string) :
  FilterSpec.accepts c (lower token) = FilterSpec.accepts c token.
Proof.
  pose proof (try_filter_accepts c token) as H1.
  pose proof (try_filter_accepts c (lower token)) as H2.
  rewrite try_filter_lower, H1 in H2.
  now destruct (FilterSpec.accepts c token), (FilterSpec.accepts c (lower token)).
Qed.

End FilterAlgebra.

(** X9.  The comments kept do not depend on the order of the filter
    tokens, and filtering with two lists of tokens one after the other
    keeps the same comments as filtering once with both. *)
Theorem X9_filters_commute_and_compose :
  (forall (comments : list Jira.Comment) (filters filters' : list string),
      Permutation filters filters' ->
      fst (Comments.filter_comments comments filters)
      = fst (Comments.filter_comments comments filters'))
  /\ (forall (comments : list Jira.Comment) (filters filters' : list string),
         fst (Comments.filter_comments comments (filters ++ filters')%list)
         = fst (Comments.filter_comments
                  (fst (Comments.filter_comments comments filters)) filters')).
Proof.
  split.
  - intros comments filters filters' H. rewrite !filter_comments_filter.
    apply filter_ext. intros c. now apply forallb_permutation.
  - intros comments filters filters'. rewrite !filter_comments_filter.
    rewrite <- filter_andb. apply filter_ext. intros c. apply forallb_app.
Qed.

Lemma X9_filters_commute_and_compose_witness :
  fst (Comments.filter_comments [Sample.january; Sample.february; Sample.anonymous]
         ["date:2023-01-01 to 2023-01-31"; "text:deployed"])
  = fst (Comments.filter_comments [Sample.january; Sample.february; Sample.anonymous]
           ["text:deployed"; "date:2023-01-01 to 2023-01-31"]).
Proof.
  destruct X9_filters_commute_and_compose as [H _].
  apply H. apply perm_swap.
Defined.

(** X10.  On text whose characters are all code points below 256, where
    lowering is done character by character, filter tokens are read
    without regard to case, field name and value alike: a token and the
    same token in lower case decide alike for every comment, so that
    lowering the tokens of a list keeps the same comments.  (Beyond that
    range Python lowers some characters by their context, and the
    property is not claimed.) *)
Theorem X10_tokens_ignore_case :
  forall (comments : list Jira.Comment) (filters : list string),
    (forall c token,
        Comments.try_filter c (PyStr.lower token) = Comments.try_filter c token)
    /\ fst (Comments.filter_comments comments (map PyStr.lower filters))
       = fst (Comments.filter_comments comments filters).
Proof.
  intros comments filters. split; [apply try_filter_lower|].
  rewrite !filter_comments_filter. apply filter_ext. intros c.
  induction filters as [|t filters IH]; [reflexivity|].
  cbn [map forallb]. now rewrite accepts_lower, IH.
Qed.

(** ** Rows of the comment table *)
Section CommentRows.
Import Py PyVal PyStr Jira Comments.

Lemma length_take (n : nat) (s : string) :
  String.length (take n s) = Nat.min n (String.length s).
Proof.
  unfold take. revert s. induction n as [|n IH]; intros s.
  - now destruct s.
  - destruct s as [|c s]; [reflexivity|]. cbn [substring String.length Nat.min].
    now rewrite IH.
Qed.

Lemma take_all (n : nat) (s : string) :
  (String.length s <= n)%nat -> take n s = s.
Proof.
  unfold take. revert s. induction n as [|n IH]; intros s H.
  - destruct s; [reflexivity | cbn in H; lia].
  - destruct s as [|c s]; [reflexivity|]. cbn [substring]. f_equal.
    apply IH. cbn in H. lia.
Qed.

Lemma length_append (a b : string) :
  String.length (a ++ b) = (String.length a + String.length b)%nat.
Proof. induction a as [|c a IH]; cbn; [reflexivity | now rewrite IH]. Qed.

Lemma mapM_inr {A B} (f : A -> M B) (l : list A) (bs : list B) :
  mapM f l = inr bs -> Forall2 (fun a b => f a = inr b) l bs.
Proof.
  revert bs. induction l as [|a l IH]; intros bs; cbn [mapM].
  - intros [= <-]. constructor.
  - destruct (f a) as [e|b] eqn:E; cbn [bind]; [discriminate|].
    destruct (mapM f l) as [e|bs'] eqn:E'; cbn [bind ret]; [discriminate|].
    intros [= <-]. constructor; [exact E | now apply IH].
Qed.

Lemma Forall2_Forall_r {A B} (P : A -> B -> Prop) (Q : A -> Prop) (R : B -> Prop)
      (l : list A) (bs : list B) :
  (forall a b, Q a -> P a b -> R b) -> Forall Q l -> Forall2 P l bs -> Forall R bs.
Proof.
  intros H Hq H2. induction H2 as [|a b l bs Hab _ IH]; constructor.
  - apply (H a b); [now inversion Hq | exact Hab].
  - apply IH. now inversion Hq.
Qed.

Lemma firstn_incl {A} (n : nat) (l : list A) (x : A) :
  In x (firstn n l) -> In x l.
Proof.
  revert l. induction n as [|n IH]; intros l; [contradiction|].
  destruct l as [|a l]; [contradiction|]. cbn [firstn].
  intros [->|H]; [now left | right; now apply IH].
Qed.

Lemma cap_incl (max_results : Z) (l : list Comment) (c : Comment) :
  In c (cap max_results l) -> In c l.
Proof.
  unfold cap. destruct (_ && _); [apply firstn_incl | exact (fun H => H)].
Qed.

(** Lines 329-334: the row of a comment. *)
Lemma comment_row_cells (c : Comment) (row : list value) :
  comment_row c = inr row ->
  exists name shown,
    author_displayName c = Some name
    /\ row = [VStr (id c); VStr name; VStr (take 19 (created c)); VStr shown]
    /\ (String.length shown <= 53)%nat
    /\ ((String.length (body c) <= 50)%nat -> shown = body c)
    /\ ((50 < String.length (body c))%nat -> shown = take 50 (body c) ++ "...").
Proof.
  unfold comment_row, comment_dict, get_displayName.
  destruct (author_displayName c) as [name|]; [|discriminate].
  cbn [bind ret]. intros [= <-]. exists name. eexists.
  split; [reflexivity|]. split; [reflexivity|].
  destruct (Nat.ltb_spec 50 (String.length (body c))) as [Hlong|Hshort].
  - split; [|split; [lia | reflexivity]].
    rewrite length_append, length_take. cbn [String.length]. lia.
  - rewrite append_empty_r. split; [|split; [intros _; now apply take_all | lia]].
    rewrite length_take. lia.
Qed.

End CommentRows.

(** X11.  In the table of [get_ticket_comments] every row has four cells,
    the id, the author, the timestamp cut at 19 characters and the body,
    of a comment that was fetched; a body of 50 characters at most is
    shown whole, a longer one is cut at 50 characters and followed by
    three dots, so that the cell never has more than 53 characters. *)
Theorem X11_comment_table_rows :
  forall jira issue_key filters max_results data out,
    Comments.returned
      (Comments.get_ticket_comments jira issue_key filters max_results "table")
    = inr (data, out) ->
    exists rows,
      data = inl rows
      /\ out = Some (Jira.Table ["ID"; "Author"; "Date"; "Comment"] rows)
      /\ Forall
           (fun row =>
              exists c name shown,
                In c (Jira.comments jira (Jira.issue jira issue_key))
                /\ Jira.author_displayName c = Some name
                /\ row = [PyVal.VStr (Jira.id c); PyVal.VStr name;
                          PyVal.VStr (PyStr.take 19 (Jira.created c)); PyVal.VStr shown]
                /\ (String.length shown <= 53)%nat
                /\ ((String.length (Jira.body c) <= 50)%nat -> shown = Jira.body c)
                /\ ((50 < String.length (Jira.body c))%nat ->
                    shown = PyStr.take 50 (Jira.body c) ++ "..."))
           rows.
Proof.
  intros jira issue_key filters max_results data out.
  unfold Comments.get_ticket_comments.
  pose proof (filter_comments_filter (Jira.comments jira (Jira.issue jira issue_key))
                filters) as Hf.
  destruct (Comments.filter_comments _ filters) as [filtered warnings].
  cbn [fst] in Hf. cbn [Comments.returned String.eqb Ascii.eqb Bool.eqb].
  destruct (Comments.mapM Comments.comment_row (Comments.cap max_results filtered))
    as [e|rows] eqn:E; cbn [Py.bind Py.ret]; [discriminate|].
  intros [= <- <-]. exists rows. split; [reflexivity|]. split; [reflexivity|].
  apply mapM_inr in E.
  assert (Hin : Forall (fun c => In c (Jira.comments jira (Jira.issue jira issue_key)))
                  (Comments.cap max_results filtered)).
  { apply Forall_forall. intros c Hc. apply cap_incl in Hc.
    rewrite Hf in Hc. now apply filter_In in Hc. }
  refine (Forall2_Forall_r _ _ _ _ _ _ Hin E).
  intros c row Hc Hrow.
  destruct (comment_row_cells c row Hrow) as (name & shown & H).
  exists c, name, shown. tauto.
Qed.

Lemma X11_comment_table_rows_witness :
  exists rows,
    Comments.returned
      (Comments.get_ticket_comments (Sample.serving [] [Sample.january; Sample.february])
         "PROJ-7" ["author:bob"] 0 "table")
    = inr (inl rows, Some (Jira.Table ["ID"; "Author"; "Date"; "Comment"] rows))
    /\ List.length rows = 1%nat.
Proof.
  destruct (X11_comment_table_rows
              (Sample.serving [] [Sample.january; Sample.february]) "PROJ-7"
              ["author:bob"] 0 _ _ eq_refl) as (rows & Hd & _).
  exists rows. injection Hd as <-. split; reflexivity.
Defined.

(** ** Field access and projection, further *)
Section AccessFacts.
Import Py PyVal PyStr Jira Fields.

Lemma split_go_dot (name rest cur : string) :
  contains "." name = false ->
  split_go "." 0 cur (name ++ "." ++ rest) = (cur ++ name) :: split_go "." 0 "" rest.
Proof.
  revert cur. induction name as [|c name IH]; intros cur H.
  - cbn [append split_go prefix]. destruct (ascii_dec "." "."); [|congruence].
    rewrite append_empty_r. now destruct rest.
  - cbn [contains] in H. apply orb_false_iff in H as [Hp Hc].
    rewrite prefix_single in Hp.
    cbn [append split_go]. rewrite prefix_single.
    destruct (ascii_dec "." c); [discriminate|].
    rewrite (IH _ Hc), append_assoc. reflexivity.
Qed.

Lemma split_dot_path (name rest : string) :
  contains "." name = false ->
  split "." (name ++ "." ++ rest) = name :: split "." rest.
Proof. intros H. unfold split. now rewrite split_go_dot. Qed.

Lemma safe_getattr_plain (obj : value) (name : string) (default : value) :
  contains "." name = false ->
  safe_getattr obj name default = getattr_default obj name default.
Proof.
  intros H. unfold safe_getattr, getattr_default. rewrite (split_absent _ _ H).
  cbn [walk]. now destruct (getattr obj name).
Qed.

Lemma cell_primitive (issue : Issue) (field : string) :
  has_dict (Tickets.cell issue field) = false.
Proof.
  unfold Tickets.cell, field_value. destruct (field =? "key"); [reflexivity|].
  now destruct (safe_getattr (fields issue) field (VStr "N/A")).
Qed.

Lemma retrieved_primitive (issue : Issue) (field : string) :
  has_dict (Retrieve.retrieved issue field) = false.
Proof.
  unfold Retrieve.retrieved.
  now destruct (safe_getattr (fields issue) field (VStr "Field not found")).
Qed.

(** Setting entries one after the other, each name to the value [g] gives
    it. *)
Lemma fold_set_assoc (g : string -> value) (names : list string) (d : dict) (f : string) :
  (forall k v, assoc k d = Some v -> v = g k) ->
  In f names \/ assoc f d <> None ->
  assoc f (fold_left (fun r k => dict_set r k (g k)) names d) = Some (g f).
Proof.
  revert d. induction names as [|a names IH]; intros d Hinv Hf.
  - cbn [fold_left]. destruct Hf as [[]|Hf].
    destruct (assoc f d) as [v|] eqn:E; [|now elim Hf].
    now rewrite (Hinv f v E).
  - cbn [fold_left]. apply IH.
    + intros k v Hk. destruct (String.eqb_spec k a) as [->|N].
      * rewrite assoc_dict_set_same in Hk. now injection Hk as <-.
      * rewrite (assoc_dict_set_other _ _ _ _ N) in Hk. now apply Hinv.
    + destruct (String.eqb_spec f a) as [->|N].
      * right. rewrite assoc_dict_set_same. discriminate.
      * rewrite (assoc_dict_set_other _ _ _ _ N).
        destruct Hf as [[E|Hf]|Hf]; [now elim N | now left | now right].
Qed.

Lemma keys_dict_set (d : dict) (k : string) (v : value) :
  map fst (dict_set d k v)
  = if mem k (map fst d) then map fst d else (map fst d ++ [k])%list.
Proof.
  induction d as [|[k' v'] d IH]; [reflexivity|].
  cbn [dict_set map fst]. unfold mem in *. cbn [existsb].
  destruct (k' =? k); cbn [orb map fst]; [reflexivity|].
  rewrite IH. now destruct (existsb _ _).
Qed.

Lemma fold_set_keys (g : string -> value) (names : list string) (d : dict) :
  map fst (fold_left (fun r k => dict_set r k (g k)) names d)
  = fold_left (fun ks k => if mem k ks then ks else (ks ++ [k])%list) names (map fst d).
Proof.
  revert d. induction names as [|a names IH]; intros d; [reflexivity|].
  cbn [fold_left]. now rewrite IH, keys_dict_set.
Qed.

Lemma dict_set_values (P : value -> Prop) (d : dict) (k : string) (v : value) :
  Forall (fun kv => P (snd kv)) d -> P v -> Forall (fun kv => P (snd kv)) (dict_set d k v).
Proof.
  intros Hd Hv. induction Hd as [|[k' v'] d Hk Hd IH]; cbn [dict_set].
  - repeat constructor. exact Hv.
  - destruct (k' =? k); constructor; assumption.
Qed.

Lemma fold_set_values (P : value -> Prop) (g : string -> value) (names : list string)
      (d : dict) :
  (forall k, P (g k)) -> Forall (fun kv => P (snd kv)) d ->
  Forall (fun kv => P (snd kv)) (fold_left (fun r k => dict_set r k (g k)) names d).
Proof.
  intros Hg. revert d. induction names as [|a names IH]; intros d Hd; [exact Hd|].
  cbn [fold_left]. apply IH, dict_set_values; [exact Hd | apply Hg].
Qed.

(** The dictionary of lines 218-227, as entries set one after the other. *)
Lemma ticket_dict_fold (fields : list string) (issue : Issue) :
  Tickets.ticket_dict fields issue
  = fold_left (fun r k => dict_set r k (Tickets.cell issue k)) fields [].
Proof.
  unfold Tickets.ticket_dict. generalize (@nil (string * value)) as d.
  induction fields as [|a fields IH]; intros d; [reflexivity|].
  cbn [fold_left]. now rewrite ticket_step, IH.
Qed.

End AccessFacts.

(** X12.  [safe_getattr] resolves a dotted path one name at a time: for a
    first name without dot, the path [name.rest] gives the default when
    the object has no attribute [name], and otherwise what [rest] gives on
    the value of that attribute; a path that is one name without dot gives
    the attribute, or the default when it is missing. *)
Theorem X12_safe_getattr_walks_the_path :
  forall obj name rest default,
    PyStr.contains "." name = false ->
    Fields.safe_getattr obj (name ++ "." ++ rest) default
    = match PyVal.getattr obj name with
      | inr v => Fields.safe_getattr v rest default
      | inl _ => default
      end
    /\ Fields.safe_getattr obj name default = PyVal.getattr_default obj name default.
Proof.
  intros obj name rest default H. unfold Fields.safe_getattr, PyVal.getattr_default.
  rewrite (split_dot_path _ _ H), (split_absent _ _ H). cbn [Fields.walk].
  destruct (PyVal.getattr obj name); cbn [Py.bind Py.ret]; split; reflexivity.
Qed.

Lemma X12_safe_getattr_walks_the_path_witness :
  Fields.safe_getattr (Jira.fields (Sample.ticket "PROJ-1" "Fix login")) "status.name"
    (PyVal.VStr "N/A") = PyVal.VStr "Open"
  /\ Fields.safe_getattr (Jira.fields (Sample.ticket "PROJ-1" "Fix login"))
       "assignee.displayName" (PyVal.VStr "Unassigned") = PyVal.VStr "Unassigned".
Proof.
  split.
  - destruct (X12_safe_getattr_walks_the_path
                (Jira.fields (Sample.ticket "PROJ-1" "Fix login")) "status" "name"
                (PyVal.VStr "N/A") eq_refl) as [H _].
    cbn [append] in H. rewrite H. reflexivity.
  - destruct (X12_safe_getattr_walks_the_path
                (Jira.fields (Sample.ticket "PROJ-1" "Fix login")) "assignee" "displayName"
                (PyVal.VStr "Unassigned") eq_refl) as [H _].
    cbn [append] in H. rewrite H. reflexivity.
Defined.

(** X13.  Whatever [list_tickets] writes, in the table, in the CSV file or
    in the JSON file, no cell is an object that carries a [__dict__]:
    such an object found on the issue has been replaced by its text.  A
    value without [__dict__], a list for one, is written as it was
    found: the cell of a field other than the key, named without dot, is
    the attribute itself unless it carries a [__dict__]. *)
Theorem X13_list_tickets_writes_no_object :
  (forall fuel jira project_key fields extra_fields output_format filters
          max_results items_per_batch r o,
      Tickets.list_tickets fuel jira project_key fields extra_fields output_format
        filters max_results items_per_batch = Some r ->
      Tickets.out r = Some o ->
      Forall (fun v => PyVal.has_dict v = false) (Shape.output_values o))
  /\ (forall issue field v,
         (field =? "key") = false ->
         PyStr.contains "." field = false ->
         PyVal.getattr (Jira.fields issue) field = inr v ->
         Tickets.cell issue field = if PyVal.has_dict v then PyVal.str v else v).
Proof.
  split.
  - intros fuel jira project_key fields extra_fields output_format filters
           max_results items_per_batch r o H Ho.
    apply list_tickets_run in H as [_ Hout]. rewrite Hout in Ho. clear Hout.
    assert (Hrow : forall F issue,
               Forall (fun v => PyVal.has_dict v = false) (Tickets.ticket_list F issue)).
    { intros F issue. unfold Tickets.ticket_list. apply Forall_map, Forall_forall.
      intros f _. apply cell_primitive. }
    unfold Tickets.render in Ho.
    destruct (output_format =? "table").
    { injection Ho as <-. cbn [Shape.output_values].
      apply Forall_concat, Forall_map, Forall_forall. intros issue _. apply Hrow. }
    destruct (output_format =? "csv").
    { injection Ho as <-. cbn [Shape.output_values]. rewrite map_map.
      apply Forall_concat, Forall_map, Forall_forall. intros issue _.
      rewrite csv_row_ticket_list. apply Hrow. }
    destruct (output_format =? "json"); [|discriminate].
    injection Ho as <-. cbn [Shape.output_values].
    apply Forall_map, Forall_concat, Forall_map, Forall_forall. intros issue _.
    rewrite ticket_dict_fold.
    apply (fold_set_values (fun v => PyVal.has_dict v = false));
      [intros k; apply cell_primitive | constructor].
  - intros issue field v Hk Hdot Hv. unfold Tickets.cell, Fields.field_value.
    rewrite Hk, (safe_getattr_plain _ _ _ Hdot). unfold PyVal.getattr_default.
    now rewrite Hv.
Qed.

Lemma X13_list_tickets_writes_no_object_witness :
  Forall (fun v => PyVal.has_dict v = false)
    (Shape.output_values
       (Jira.Table ["labels"; "status"; "key"]
          [[PyVal.VList [PyVal.VStr "ui"; PyVal.VStr "urgent"]; PyVal.VStr "Open";
            PyVal.VStr "PROJ-9"]]))
  /\ Tickets.cell
       {| Jira.key := "PROJ-9";
          Jira.fields :=
            PyVal.VObj "fields"
              [("labels", PyVal.VList [PyVal.VStr "ui"; PyVal.VStr "urgent"]);
               ("status", PyVal.VObj "Open" [("name", PyVal.VStr "Open")])] |}
       "labels"
     = PyVal.VList [PyVal.VStr "ui"; PyVal.VStr "urgent"].
Proof.
  destruct X13_list_tickets_writes_no_object as [H1 H2]. split.
  - apply (H1 3%nat
             (Sample.serving
                [{| Jira.key := "PROJ-9";
                    Jira.fields :=
                      PyVal.VObj "fields"
                        [("labels", PyVal.VList [PyVal.VStr "ui"; PyVal.VStr "urgent"]);
                         ("status", PyVal.VObj "Open" [("name", PyVal.VStr "Open")])] |}] [])
             "PROJ" ["labels"; "status"; "key"] [] "table" [] 0 50 _ _ eq_refl eq_refl).
  - apply (H2 _ "labels" (PyVal.VList [PyVal.VStr "ui"; PyVal.VStr "urgent"]));
      reflexivity.
Defined.



(** ** [retrieve_ticket_fields], [get_jira_client] and the commands *)
Section OtherFunctions.
Import Py PyVal PyStr Jira Fields.

Lemma list_filter_cases (f : string) :
  Cli.list_filter f = inl ValueError \/ exists clause, Cli.list_filter f = inr clause.
Proof.
  unfold Cli.list_filter, split1.
  destruct (partition ":" f) as [[k v]|]; [right; eexists; reflexivity | now left].
Qed.

Lemma list_filter_no_separator (f : string) :
  partition ":" f = None -> Cli.list_filter f = inl ValueError.
Proof. intros H. unfold Cli.list_filter, split1. now rewrite H. Qed.

Lemma mapM_all {A B} (f : A -> M B) (l : list A) :
  (forall a, In a l -> exists b, f a = inr b) -> exists bs, Comments.mapM f l = inr bs.
Proof.
  induction l as [|a l IH]; intros H; [eexists; reflexivity|].
  destruct (H a (or_introl eq_refl)) as [b E].
  destruct IH as [bs E']; [intros x Hx; apply H; now right|].
  cbn [Comments.mapM]. rewrite E. cbn [bind]. rewrite E'. eexists. reflexivity.
Qed.

Lemma with_key_fixed (fields : list string) :
  In "key" fields -> Tickets.with_key fields = fields.
Proof. intros H. unfold Tickets.with_key. apply mem_In in H. now rewrite H. Qed.

End OtherFunctions.

(** X15.  [retrieve_ticket_fields] fetches the issue once and returns a
    dictionary with one entry per distinct name asked for, in the order
    in which the names first occur; the entry of a name is the value
    found on the issue, an object that carries a [__dict__] being
    replaced by its text, so that no entry carries a [__dict__] (a value
    without one, a list for one, is kept as it was found); and a name
    without dot that the issue does not have is given the text Field not
    found. *)
Theorem X15_retrieve_ticket_fields :
  forall jira issue_key field_names,
    let issue := Jira.issue jira issue_key in
    let result := snd (Retrieve.retrieve_ticket_fields jira issue_key field_names) in
    fst (Retrieve.retrieve_ticket_fields jira issue_key field_names)
    = [Jira.CallIssue issue_key]
    /\ map fst result = Shape.distinct field_names
    /\ (forall f, In f field_names ->
                  PyVal.assoc f result = Some (Retrieve.retrieved issue f))
    /\ Forall (fun kv => PyVal.has_dict (snd kv) = false) result
    /\ (forall f, In f field_names ->
                  PyStr.contains "." f = false ->
                  PyVal.getattr (Jira.fields issue) f = inl Py.AttributeError ->
                  PyVal.assoc f result = Some (PyVal.VStr "Field not found")).
Proof.
  intros jira issue_key field_names issue result.
  subst result. unfold Retrieve.retrieve_ticket_fields. cbn [fst snd]. fold issue.
  assert (Hassoc : forall f, In f field_names ->
             PyVal.assoc f
               (fold_left (fun r k => PyVal.dict_set r k (Retrieve.retrieved issue k))
                  field_names [])
             = Some (Retrieve.retrieved issue f)).
  { intros f Hf. apply fold_set_assoc; [discriminate | now left]. }
  split; [reflexivity|]. split; [apply fold_set_keys|]. split; [exact Hassoc|]. split.
  - apply (fold_set_values (fun v => PyVal.has_dict v = false));
      [intros k; apply retrieved_primitive | constructor].
  - intros f Hf Hdot Hmiss. rewrite (Hassoc f Hf). f_equal.
    unfold Retrieve.retrieved. rewrite (safe_getattr_plain _ _ _ Hdot).
    unfold PyVal.getattr_default. now rewrite Hmiss.
Qed.

Lemma X15_retrieve_ticket_fields_witness :
  PyVal.assoc "status"
    (snd (Retrieve.retrieve_ticket_fields
            (Sample.stubborn [] 0) "PROJ-1" ["status"; "labels"; "status"]))
  = Some (PyVal.VStr "Open")
  /\ PyVal.assoc "labels"
       (snd (Retrieve.retrieve_ticket_fields
               (Sample.stubborn [] 0) "PROJ-1" ["status"; "labels"; "status"]))
     = Some (PyVal.VStr "Field not found").
Proof.
  destruct (X15_retrieve_ticket_fields (Sample.stubborn [] 0) "PROJ-1"
              ["status"; "labels"; "status"]) as (_ & _ & Ha & _ & Hm).
  split.
  - rewrite (Ha "status"); [reflexivity | now left].
  - apply Hm; [right; now left | reflexivity | reflexivity].
Defined.

(** X16.  [get_jira_client] takes each of the URL, the user name and the
    token from the configuration when the configuration has it, and from
    the environment only otherwise, so that with the three in the
    configuration the environment plays no part; it raises [ValueError]
    exactly when one of the three is missing or empty once looked up; and
    an empty value in the configuration is not made up for by the
    environment. *)
Theorem X16_get_jira_client_lookup :
  forall (config environ : Client.settings),
    let names := ["JIRA_URL"; "JIRA_USERNAME"; "JIRA_API_TOKEN"] in
    (forall environ',
        (forall name, In name names -> config name <> None) ->
        Client.get_jira_client config environ' = Client.get_jira_client config environ)
    /\ (Client.get_jira_client config environ = inl Py.ValueError
        <-> exists name, In name names /\ Client.falsy (Client.get config environ name) = true)
    /\ (forall c, Client.get_jira_client config environ = inr c ->
                  Client.get config environ "JIRA_URL" = Some (Client.server c)
                  /\ Client.get config environ "JIRA_USERNAME" = Some (fst (Client.basic_auth c))
                  /\ Client.get config environ "JIRA_API_TOKEN" = Some (snd (Client.basic_auth c)))
    /\ (forall name, In name names -> config name = Some EmptyString ->
                     Client.get_jira_client config environ = inl Py.ValueError).
Proof.
  intros config environ names.
  assert (Hraise : Client.get_jira_client config environ = inl Py.ValueError
                   <-> exists name, In name names
                                    /\ Client.falsy (Client.get config environ name) = true).
  { unfold Client.get_jira_client. split.
    - destruct (Client.falsy (Client.get config environ "JIRA_URL")) eqn:E1;
        [intros _; exists "JIRA_URL"; split; [now left | exact E1]|].
      destruct (Client.falsy (Client.get config environ "JIRA_USERNAME")) eqn:E2;
        [intros _; exists "JIRA_USERNAME"; split; [right; now left | exact E2]|].
      destruct (Client.falsy (Client.get config environ "JIRA_API_TOKEN")) eqn:E3;
        [intros _; exists "JIRA_API_TOKEN"; split; [do 2 right; now left | exact E3]|].
      discriminate.
    - intros (name & Hin & Hf).
      destruct Hin as [<-|[<-|[<-|[]]]]; rewrite Hf; cbn [orb];
        rewrite ?orb_true_r; reflexivity. }
  split; [|split; [exact Hraise|split]].
  - intros environ' Hall. unfold Client.get_jira_client, Client.get.
    pose proof (Hall "JIRA_URL" (or_introl eq_refl)) as H1.
    pose proof (Hall "JIRA_USERNAME" (or_intror (or_introl eq_refl))) as H2.
    pose proof (Hall "JIRA_API_TOKEN" (or_intror (or_intror (or_introl eq_refl)))) as H3.
    destruct (config "JIRA_URL"); [|now elim H1].
    destruct (config "JIRA_USERNAME"); [|now elim H2].
    destruct (config "JIRA_API_TOKEN"); [|now elim H3].
    reflexivity.
  - intros c. unfold Client.get_jira_client.
    destruct (Client.get config environ "JIRA_URL") as [[|a u]|];
      destruct (Client.get config environ "JIRA_USERNAME") as [[|b n]|];
      destruct (Client.get config environ "JIRA_API_TOKEN") as [[|d t]|];
      cbn [Client.falsy orb Py.raise Py.ret Client.text]; try discriminate.
    intros [= <-]. repeat split.
  - intros name Hin Hempty. apply Hraise. exists name. split; [exact Hin|].
    unfold Client.get. now rewrite Hempty.
Qed.

Lemma X16_get_jira_client_lookup_witness :
  Client.get_jira_client
    (fun name => if name =? "JIRA_URL" then Some EmptyString else None)
    (fun name => Some "from the environment")
  = inl Py.ValueError.
Proof.
  destruct (X16_get_jira_client_lookup
              (fun name => if name =? "JIRA_URL" then Some EmptyString else None)
              (fun name => Some "from the environment")) as (_ & _ & _ & H).
  apply (H "JIRA_URL"); [now left | reflexivity].
Defined.

(** X17.  The command [list] turns each filter option into a clause and
    stops with [ValueError], before any search, as soon as one option has
    no colon (where the comment filter would only warn); otherwise it
    runs [list_tickets] on the fields cut at the commas, with no maximum
    and batches of 50, and so, against a service that answers with the
    slices asked for, renders every issue the service holds. *)
Theorem X17_list_command :
  forall fuel project_key fields filter output,
    (forall jira,
        (exists f, In f filter /\ PyStr.partition ":" f = None) ->
        Cli.list_command fuel jira project_key fields filter output = inl Py.ValueError)
    /\ (forall jira,
           (forall f, In f filter -> PyStr.partition ":" f <> None) ->
           exists filters,
             Cli.list_command fuel jira project_key fields filter output
             = inr (Tickets.list_tickets fuel jira project_key (PyStr.split "," fields)
                      [] output filters 0 50))
    /\ (forall db cs,
           (forall f, In f filter -> PyStr.partition ":" f <> None) ->
           (List.length db < fuel)%nat ->
           exists r,
             Cli.list_command fuel (Sample.serving db cs) project_key fields filter output
             = inr (Some r)
             /\ Tickets.total_issues r = db).
Proof.
  intros fuel project_key fields filter output.
  assert (Hok : (forall f, In f filter -> PyStr.partition ":" f <> None) ->
                exists filters, Comments.mapM Cli.list_filter filter = inr filters).
  { intros Hall. apply mapM_all. intros f Hf. specialize (Hall f Hf).
    unfold Cli.list_filter, PyStr.split1.
    destruct (PyStr.partition ":" f) as [[k v]|]; [eexists; reflexivity | now elim Hall]. }
  split; [|split].
  - intros jira Hbad. unfold Cli.list_command.
    rewrite (mapM_raises Cli.list_filter Py.ValueError
               (fun f => PyStr.partition ":" f = None) filter
               list_filter_cases list_filter_no_separator);
      [reflexivity | now apply Exists_exists].
  - intros jira Hall. destruct (Hok Hall) as [filters E].
    exists filters. unfold Cli.list_command. now rewrite E.
  - intros db cs Hall Hf. destruct (Hok Hall) as [filters E].
    unfold Cli.list_command. rewrite E. cbn [Py.bind Py.ret].
    unfold Tickets.list_tickets.
    destruct (tickets_loop_serving db cs (Tickets.build_jql project_key filters)
                (Tickets.with_key (PyStr.split "," fields) ++ [])%list 0 50 fuel
                ltac:(lia) 0 0 []) as [l ->].
    + pose proof (len_nonneg db). lia.
    + reflexivity.
    + lia.
    + unfold PyVal.len. lia.
    + eexists. split; reflexivity.
Qed.

Lemma X17_list_command_witness :
  Cli.list_command 5 (Sample.serving [Sample.ticket "PROJ-1" "A"] []) "PROJ" "summary,status"
    ["status:Done"; "assignee"] "table"
  = inl Py.ValueError
  /\ exists r,
       Cli.list_command 5 (Sample.serving [Sample.ticket "PROJ-1" "A"] []) "PROJ"
         "summary,status" ["status:Done"] "table" = inr (Some r)
       /\ Tickets.total_issues r = [Sample.ticket "PROJ-1" "A"].
Proof.
  split.
  - destruct (X17_list_command 5 "PROJ" "summary,status" ["status:Done"; "assignee"] "table")
      as [H _].
    apply H. exists "assignee". split; [right; now left | reflexivity].
  - destruct (X17_list_command 5 "PROJ" "summary,status" ["status:Done"] "table")
      as (_ & _ & H).
    apply H; [|cbn; lia]. intros f [<-|[]]. discriminate.
Defined.

(** X18.  The command [create] issues a remote call only when the client
    could be built, a project key was found and the description file
    exists and is read.  A project key given on the command line is used whatever the
    configuration and the environment say; without one, the key of the
    configuration or else of the environment is used; and when none is
    found the command echoes the error and then fails on the name [sys],
    which the module does not import, instead of exiting, no ticket being
    created. *)
Theorem X18_create_command :
  forall fs config environ jira module_name description_file priority
         epic_key project_key issue_type,
    let result := Cli.create_command fs config environ jira module_name description_file
                    priority epic_key project_key issue_type in
    let found := Cli.or_else project_key (Client.get config environ "JIRA_PROJECT_KEY") in
    let summary := "Update " ++ module_name ++ " for Python 3.12 Compatibility" in
    (Cli.calls result <> [] ->
     (exists c, Client.get_jira_client config environ = inr c)
     /\ Create.truthy found = true
     /\ exists text, fs description_file = Create.Text text)
    /\ (forall c, Client.get_jira_client config environ = inr c ->
                  Create.truthy found = false ->
                  result = Cli.NameError ["Error: No project key provided."])
    /\ (forall c, Client.get_jira_client config environ = inr c ->
                  Create.truthy project_key = true ->
                  result = Cli.Ran (Create.create_jira_ticket fs jira (Client.text project_key)
                                      summary description_file priority epic_key issue_type))
    /\ (forall c, Client.get_jira_client config environ = inr c ->
                  Create.truthy project_key = false ->
                  Create.truthy found = true ->
                  result = Cli.Ran (Create.create_jira_ticket fs jira
                                      (Client.text (Client.get config environ "JIRA_PROJECT_KEY"))
                                      summary description_file priority epic_key issue_type)).
Proof.
  intros fs config environ jira module_name description_file priority
         epic_key project_key issue_type result found summary.
  subst result. unfold Cli.create_command. fold found. fold summary.
  split; [|split; [|split]].
  - destruct (Client.get_jira_client config environ) as [e|c]; [now intros H|].
    destruct (Create.truthy found) eqn:Ef; cbn [negb Cli.calls]; [|now intros H].
    intros Hcalls. split; [eauto|]. split; [reflexivity|].
    unfold Create.create_jira_ticket in Hcalls.
    destruct (fs description_file) as [|e|text]; [now elim Hcalls | now elim Hcalls | eauto].
  - intros c -> Hf. now rewrite Hf.
  - intros c -> Hp.
    assert (Efound : found = project_key) by (unfold found, Cli.or_else; now rewrite Hp).
    rewrite Efound, Hp. reflexivity.
  - intros c -> Hp Hf. rewrite Hf. cbn [negb].
    assert (Efound : found = Client.get config environ "JIRA_PROJECT_KEY")
      by (unfold found, Cli.or_else; now rewrite Hp).
    now rewrite Efound.
Qed.

Lemma X18_create_command_witness :
  Cli.create_command Sample.files
    (fun name => if name =? "JIRA_PROJECT_KEY" then None else Some "set")
    (fun _ => None) (Sample.serving [] []) "core" "description.md" "Medium" None None "Task"
  = Cli.NameError ["Error: No project key provided."].
Proof.
  destruct (X18_create_command Sample.files
              (fun name => if name =? "JIRA_PROJECT_KEY" then None else Some "set")
              (fun _ => None) (Sample.serving [] []) "core" "description.md" "Medium"
              None None "Task") as (_ & H & _).
  apply (H {| Client.server := "set"; Client.basic_auth := ("set", "set") |});
    reflexivity.
Defined.

(** X19.  [list_tickets] keeps the caller's fields in their order at the
    head of the list it works with, adds the key at most once, and run
    again on the list it has extended leaves this list as it is. *)
Theorem X19_key_added_once :
  forall fuel fuel' jira project_key fields extra_fields output_format filters
         max_results items_per_batch r r',
    Tickets.list_tickets fuel jira project_key fields extra_fields output_format
      filters max_results items_per_batch = Some r ->
    Tickets.list_tickets fuel' jira project_key (Tickets.fields_used r) extra_fields
      output_format filters max_results items_per_batch = Some r' ->
    Tickets.fields_used r' = Tickets.fields_used r
    /\ (Tickets.fields_used r = fields
        \/ (~ In "key" fields /\ Tickets.fields_used r = (fields ++ ["key"])%list)).
Proof.
  intros fuel fuel' jira project_key fields extra_fields output_format filters
         max_results items_per_batch r r' H H'.
  apply list_tickets_run in H as [Hf _]. apply list_tickets_run in H' as [Hf' _].
  split.
  - rewrite Hf'. apply with_key_fixed. rewrite Hf. apply with_key_has_key.
  - rewrite Hf. unfold Tickets.with_key.
    destruct (Fields.mem "key" fields) eqn:E; [now left|].
    right. split; [|reflexivity]. intros Hin. apply mem_In in Hin. congruence.
Qed.

Lemma X19_key_added_once_witness :
  exists r r',
    Tickets.list_tickets 3 (Sample.serving [Sample.ticket "PROJ-1" "A"] []) "PROJ"
      ["summary"] [] "table" [] 0 50 = Some r
    /\ Tickets.list_tickets 3 (Sample.serving [Sample.ticket "PROJ-1" "A"] []) "PROJ"
         (Tickets.fields_used r) [] "table" [] 0 50 = Some r'
    /\ Tickets.fields_used r' = Tickets.fields_used r.
Proof.
  do 2 eexists. split; [reflexivity|]. split; [reflexivity|].
  apply (X19_key_added_once 3 3 (Sample.serving [Sample.ticket "PROJ-1" "A"] []) "PROJ"
           ["summary"] [] "table" [] 0 50 _ _ eq_refl eq_refl).
Defined.
